(** * lid_functions: reading the sections of a LAMMPS input data (Lid) file

    A shallow embedding of [src/lid_functions.py] and the properties of its
    header reader ([lid_header]), section locator ([parse_lid]) and the six
    section extractors ([masses], [atoms], [bonds], [angles], [dihedrals],
    [impropers]).

    Conventions of the embedding:
    - a Python [str] is a [string]; a character is a code point below 256;
    - a Python [int] is a [Z]; list positions produced by the code itself
      ([list.index], literal subscripts) are [nat];
    - a Python list is a [list]; item assignment is stdpp's [<[i:=x]>] guarded
      by the bounds check that makes Python raise [IndexError];
    - an exception is the [Raises] outcome of a computation;
    - the file system and the console are the two components of a [World]
      that every top-level function threads. *)

From Stdlib Require Import ZArith List String Ascii Bool Lia.
From stdpp Require Import base option list strings gmap.

Local Open Scope string_scope.
Local Open Scope list_scope.

(** ** Python values and primitives *)

Module Py.

Inductive exn :=
| FileNotFoundError | IndexError | ValueError | AttributeError.

Inductive outcome (A : Type) : Type :=
| Returns (a : A)
| Raises (e : exn).
Arguments Returns {A} a.
Arguments Raises {A} e.

Definition bind {A B} (c : outcome A) (k : A -> outcome B) : outcome B :=
  match c with
  | Returns a => k a
  | Raises e => Raises e
  end.

(** The values stored in the header lists: the initial [0] or a token. *)
Inductive value := Int (n : Z) | Str (s : string).

(** [c.isspace()] for one character: the white space of [str.split()]. *)
Definition isspace (c : ascii) : bool :=
  let n := nat_of_ascii c in
  ((9 <=? n)%nat && (n <=? 13)%nat)
  || ((28 <=? n)%nat && (n <=? 32)%nat)
  || (n =? 133)%nat || (n =? 160)%nat.

(** [s.split()]: the maximal runs of characters that are not white space;
    [word] is the run being read. *)
Fixpoint split_from (word : string) (s : string) : list string :=
  match s with
  | EmptyString => if String.eqb word "" then [] else [word]
  | String c rest =>
      if isspace c
      then if String.eqb word "" then split_from "" rest
           else word :: split_from "" rest
      else split_from (word +:+ String c "") rest
  end.

Definition split (s : string) : list string := split_from "" s.

(** [x in l] for a list of strings. *)
Definition contains (x : string) (l : list string) : bool :=
  existsb (String.eqb x) l.

(** [l.index(x)]: the first position of [x], [ValueError] when absent. *)
Fixpoint index_from {A} `{EqDecision A} (i : nat) (x : A) (l : list A)
  : outcome nat :=
  match l with
  | [] => Raises ValueError
  | y :: rest => if decide (y = x) then Returns i
                 else index_from (S i) x rest
  end.

Definition index {A} `{EqDecision A} (x : A) (l : list A) : outcome nat :=
  index_from 0 x l.

(** [l[i]] with [i >= 0]. *)
Definition getitem {A} (l : list A) (i : nat) : outcome A :=
  match l !! i with
  | Some x => Returns x
  | None => Raises IndexError
  end.

(** [l[i] = x] with [i >= 0]. *)
Definition setitem {A} (l : list A) (i : nat) (x : A) : outcome (list A) :=
  if (i <? length l)%nat then Returns (<[i:=x]> l) else Raises IndexError.

(** [a > b] on lists of integers: lexicographic, a proper prefix is
    smaller. *)
Fixpoint list_gt (a b : list Z) : bool :=
  match a, b with
  | [], _ => false
  | _ :: _, [] => true
  | x :: a', y :: b' =>
      if (x =? y)%Z then list_gt a' b' else (y <? x)%Z
  end.

(** [max(l)] on a list of lists: the first of the greatest items. *)
Definition max (l : list (list Z)) : outcome (list Z) :=
  match l with
  | [] => Raises ValueError
  | x :: rest =>
      Returns (fold_left (fun m y => if list_gt y m then y else m) rest x)
  end.

(** [min(l)] on a list of integers: the first of the least items. *)
Definition min (l : list Z) : outcome Z :=
  match l with
  | [] => Raises ValueError
  | x :: rest =>
      Returns (fold_left (fun m y => if (y <? m)%Z then y else m) rest x)
  end.

(** [l[start:stop]]; [stop = None] is the open slice [l[start:]].
    Negative bounds count from the end and every bound is clamped to
    [0..len(l)]. *)
Definition clamp (len i : Z) : Z :=
  if (i <? 0)%Z then Z.max (i + len) 0 else Z.min i len.

Definition slice {A} (l : list A) (start : Z) (stop : option Z) : list A :=
  let len := Z.of_nat (length l) in
  let lo := clamp len start in
  let hi := match stop with None => len | Some j => clamp len j end in
  take (Z.to_nat (hi - lo)) (drop (Z.to_nat lo) l).

(** Text mode reading: ["\r\n"] and ["\r"] arrive as ["\n"]. *)
Definition LF : ascii := ascii_of_nat 10.
Definition CR : ascii := ascii_of_nat 13.

Fixpoint universal_newlines (s : string) : string :=
  match s with
  | EmptyString => EmptyString
  | String c rest =>
      if Ascii.eqb c CR then
        match rest with
        | String c' rest' =>
            if Ascii.eqb c' LF then String LF (universal_newlines rest')
            else String LF (universal_newlines rest)
        | EmptyString => String LF EmptyString
        end
      else String c (universal_newlines rest)
  end.

(** [readlines()]: every line keeps its newline; [line] is the line being
    read. *)
Fixpoint readlines_from (line : string) (s : string) : list string :=
  match s with
  | EmptyString => if String.eqb line "" then [] else [line]
  | String c rest =>
      if Ascii.eqb c LF then (line +:+ String LF "") :: readlines_from "" rest
      else readlines_from (line +:+ String c "") rest
  end.

Definition readlines (content : string) : list string :=
  readlines_from "" (universal_newlines content).

End Py.

Import Py.

Declare Scope py_scope.
Delimit Scope py_scope with py.
Notation "x <- c ;; k" := (Py.bind c (fun x => k))
  (at level 62, c at next level, right associativity) : py_scope.

(** ** The world: files and console *)

(** [files] holds the text of every file that opens and decodes as text,
    under its name. Opening any other name fails; the model gives that
    failure as [FileNotFoundError] and does not tell apart the other ways in
    which [open] or [readlines] can refuse a name (bytes that do not decode,
    a name the system rejects). Statements about a read that succeeded or
    failed are phrased on the outcome of [open_readlines]. *)
Record World := { files : gmap string string; console : list string }.

Definition IO (A : Type) : Type := World -> outcome A * World.

Module IOMonad.

Definition ret {A} (a : A) : IO A := fun w => (Returns a, w).

Definition bind {A B} (c : IO A) (k : A -> IO B) : IO B :=
  fun w => match c w with
           | (Returns a, w') => k a w'
           | (Raises e, w') => (Raises e, w')
           end.

Definition lift {A} (c : outcome A) : IO A := fun w => (c, w).

(** [with open(fname, "r") as f: lines = f.readlines()] *)
Definition open_readlines (fname : string) : IO (list string) :=
  fun w => match files w !! fname with
           | Some content => (Returns (readlines content), w)
           | None => (Raises FileNotFoundError, w)
           end.

(** [print(s)] *)
Definition print (s : string) : IO unit :=
  fun w => (Returns tt,
            {| files := files w; console := console w ++ [s] |}).

End IOMonad.

Import IOMonad.

Declare Scope io_scope.
Delimit Scope io_scope with io.
Notation "x <- c ;; k" := (IOMonad.bind c (fun x => k))
  (at level 62, c at next level, right associativity) : io_scope.

(** [colorama.Fore.RED], the escape sequence that switches to red. *)
Definition Fore_RED : string := String (ascii_of_nat 27) "[31m".

(** ** The header reader *)

Definition sections : list string :=
  ["Masses"; "Atoms"; "Bonds"; "Angles"; "Dihedrals"; "Impropers"].
Definition molecular_prop : list string :=
  ["atoms"; "bonds"; "angles"; "dihedrals"; "impropers"].
Definition types_prop : list string :=
  ["atom"; "bond"; "angle"; "dihedral"; "improper"].
Definition boundary_prop : list string :=
  ["xlo"; "xhi"; "ylo"; "yhi"; "zlo"; "zhi"].

Record header := {
  molecular_data : list value;
  types_data : list value;
  boundary_data : list value
}.

Definition header_init : header :=
  {| molecular_data := [Int 0; Int 0; Int 0; Int 0; Int 0];
     types_data := [Int 0; Int 0; Int 0; Int 0; Int 0];
     boundary_data := [Int 0; Int 0; Int 0; Int 0; Int 0; Int 0] |}.

(** [line[i]] where a length test has already been passed; the tests of the
    source are conjunctions whose left side guards the subscript. *)
Definition tok (line : list string) (i : nat) : string := nth i line "".

(** What one turn of a [for] loop does to the rest of the loop. *)
Inductive flow (S : Type) : Type :=
| Next (s : S)
| Break (s : S).
Arguments Next {S} s.
Arguments Break {S} s.

(** The body of the loop of [lid_header] on one raw line. *)
Definition lid_header_body (raw : string) (h : header)
  : outcome (flow header) :=
  let line := split raw in
  if (2 <=? length line)%nat && contains (tok line 1) molecular_prop then
    (i <- index (tok line 1) molecular_prop ;;
     md <- setitem (molecular_data h) i (Str (tok line 0)) ;;
     Returns (Next {| molecular_data := md;
                      types_data := types_data h;
                      boundary_data := boundary_data h |}))%py
  else if (3 <=? length line)%nat && contains (tok line 1) types_prop then
    (i <- index (tok line 1) types_prop ;;
     td <- setitem (types_data h) i (Str (tok line 0)) ;;
     Returns (Next {| molecular_data := molecular_data h;
                      types_data := td;
                      boundary_data := boundary_data h |}))%py
  else if (4 <=? length line)%nat && contains (tok line 2) boundary_prop then
    (i <- index (tok line 2) boundary_prop ;;
     bd <- setitem (boundary_data h) i (Str (tok line 0)) ;;
     j <- index (tok line 2) boundary_prop ;;
     bd' <- setitem bd (j + 1) (Str (tok line 1)) ;;
     Returns (Next {| molecular_data := molecular_data h;
                      types_data := types_data h;
                      boundary_data := bd' |}))%py
  else if (1 <=? length line)%nat && contains (tok line 0) sections then
    Returns (Break h)
  else
    Returns (Next h).

(** [for x in l: body], with [break] and exceptions. *)
Fixpoint for_each {E S : Type} (body : E -> S -> outcome (flow S))
  (lines : list E) (s : S) : outcome S :=
  match lines with
  | [] => Returns s
  | raw :: rest =>
      (r <- body raw s ;;
       match r with
       | Next s' => for_each body rest s'
       | Break s' => Returns s'
       end)%py
  end.

Definition lid_header_lines (lines : list string)
  : outcome (list value * list value * list value) :=
  (h <- for_each lid_header_body lines header_init ;;
   Returns (molecular_data h, types_data h, boundary_data h))%py.

Definition lid_header (fname : string)
  : IO (list value * list value * list value) :=
  (lines <- open_readlines fname ;;
   lift (lid_header_lines lines))%io.

(** ** The section locator *)

Record locator := {
  mas_section : list Z;
  atm_section : list Z;
  bnd_section : list Z;
  ang_section : list Z;
  dih_section : list Z;
  imp_section : list Z;
  counter : Z
}.

Definition locator_init : locator :=
  {| mas_section := [0; 0]%Z; atm_section := [0; 0]%Z;
     bnd_section := [0; 0]%Z; ang_section := [0; 0]%Z;
     dih_section := [0; 0]%Z; imp_section := [0; 0]%Z;
     counter := 0%Z |}.

(** The [if]/[elif] chain of [parse_lid] on one raw line, before the counter
    is advanced. *)
Definition parse_lid_match (raw : string) (s : locator) : outcome locator :=
  let line := split raw in
  let here := (1 <=? length line)%nat in
  if here && String.eqb (tok line 0) "Masses" then
    (x <- setitem (mas_section s) 0 (counter s) ;;
     Returns {| mas_section := x; atm_section := atm_section s;
                bnd_section := bnd_section s; ang_section := ang_section s;
                dih_section := dih_section s; imp_section := imp_section s;
                counter := counter s |})%py
  else if here && String.eqb (tok line 0) "Atoms" then
    (x <- setitem (atm_section s) 0 (counter s) ;;
     Returns {| mas_section := mas_section s; atm_section := x;
                bnd_section := bnd_section s; ang_section := ang_section s;
                dih_section := dih_section s; imp_section := imp_section s;
                counter := counter s |})%py
  else if here && String.eqb (tok line 0) "Bonds" then
    (x <- setitem (bnd_section s) 0 (counter s) ;;
     Returns {| mas_section := mas_section s; atm_section := atm_section s;
                bnd_section := x; ang_section := ang_section s;
                dih_section := dih_section s; imp_section := imp_section s;
                counter := counter s |})%py
  else if here && String.eqb (tok line 0) "Angles" then
    (x <- setitem (ang_section s) 0 (counter s) ;;
     Returns {| mas_section := mas_section s; atm_section := atm_section s;
                bnd_section := bnd_section s; ang_section := x;
                dih_section := dih_section s; imp_section := imp_section s;
                counter := counter s |})%py
  else if here && String.eqb (tok line 0) "Dihedrals" then
    (x <- setitem (dih_section s) 0 (counter s) ;;
     Returns {| mas_section := mas_section s; atm_section := atm_section s;
                bnd_section := bnd_section s; ang_section := ang_section s;
                dih_section := x; imp_section := imp_section s;
                counter := counter s |})%py
  else if here && String.eqb (tok line 0) "Impropers" then
    (x <- setitem (imp_section s) 0 (counter s) ;;
     Returns {| mas_section := mas_section s; atm_section := atm_section s;
                bnd_section := bnd_section s; ang_section := ang_section s;
                dih_section := dih_section s; imp_section := x;
                counter := counter s |})%py
  else
    Returns s.

(** The whole body: the chain, then [counter += 1]. *)
Definition parse_lid_body (raw : string) (s : locator)
  : outcome (flow locator) :=
  (s' <- parse_lid_match raw s ;;
   Returns (Next {| mas_section := mas_section s';
                    atm_section := atm_section s';
                    bnd_section := bnd_section s';
                    ang_section := ang_section s';
                    dih_section := dih_section s';
                    imp_section := imp_section s';
                    counter := counter s' + 1 |}))%py.

Definition table_of (s : locator) : list (list Z) :=
  [mas_section s; atm_section s; bnd_section s; ang_section s;
   dih_section s; imp_section s].

Definition parse_lid_lines (lines : list string) : outcome (list (list Z)) :=
  (s <- for_each parse_lid_body lines locator_init ;;
   Returns (table_of s))%py.

Definition parse_lid (fname : string) : IO (list (list Z)) :=
  (lines <- open_readlines fname ;;
   lift (parse_lid_lines lines))%io.

(** ** The section extractors *)

(** What an extractor's [..._data] variable can hold. *)
Inductive section_data :=
| PyNone
| Rows (rows : list (list string)).

(** The distance recorded for a table entry that cannot end the section. *)
Definition sentinel : Z := 5000000000000.

(** [in_data[k][0]] *)
Definition offset_at (in_data : list (list Z)) (k : nat) : outcome Z :=
  (row <- getitem in_data k ;; getitem row 0)%py.

(** [enumerate(l)] *)
Definition enumerate {A} (l : list A) : list (nat * A) :=
  combine (seq 0 (length l)) l.

(** The body of the loop over [enumerate(in_data)]: one distance is appended
    to the list [stop] for every table entry. *)
Definition distance_body (in_data : list (list Z)) (k : nat)
  (element : nat * list Z) (stop : list Z) : outcome (flow (list Z)) :=
  (e <- getitem (snd element) 0 ;;
   t <- offset_at in_data k ;;
   if (e - t =? 0)%Z then Returns (Next (stop ++ [sentinel]))
   else if (e - t <? 0)%Z then Returns (Next (stop ++ [sentinel]))
   else if (e - t >? 0)%Z then Returns (Next (stop ++ [(e - t)%Z]))
   else Returns (Next stop))%py.

(** The local variables an extractor has set when it opens the file again:
    [data] is unbound ([None]) unless the section is absent, [stop = None]
    is Python's [None]. *)
Record bounds := {
  data : option section_data;
  start : Z;
  stop : option Z
}.

(** The [if]/[elif]/[else] that chooses the slice of section [k]. *)
Definition section_bounds (k : nat) (warning advice : string)
  (in_data : list (list Z)) : IO bounds :=
  (t <- lift (offset_at in_data k) ;;
   if (t =? 0)%Z then
     (_ <- print (Fore_RED +:+ warning) ;;
      _ <- print (Fore_RED +:+ advice) ;;
      ret {| data := Some PyNone; start := -1; stop := Some (-1)%Z |})
   else
     (top <- lift (Py.max in_data) ;;
      m <- lift (getitem top 0) ;;
      if (t =? m)%Z then
        (t <- lift (offset_at in_data k) ;;
         ret {| data := None; start := t + 1; stop := None |})
      else
        (dists <- lift (for_each (distance_body in_data k)
                          (enumerate in_data) []) ;;
         least <- lift (Py.min dists) ;;
         i <- lift (index least dists) ;;
         m <- lift (offset_at in_data i) ;;
         t <- lift (offset_at in_data k) ;;
         ret {| data := None; start := t + 1; stop := Some m |})))%io.

(** The body of the final loop, [if line != []: ..._data.append(line)], on
    the value the variable holds; [None] has no [append]. *)
Definition append_body (raw : string) (held : section_data)
  : outcome (flow section_data) :=
  let line := split raw in
  match line with
  | [] => Returns (Next held)
  | _ :: _ =>
      match held with
      | Rows rows => Returns (Next (Rows (rows ++ [line])))
      | PyNone => Raises AttributeError
      end
  end.

(** The shared text of the six extractors; they differ in [k] and in the two
    messages. [held] is the variable [..._data]: [..._data = []] binds it
    anew whatever [data b] was, and what it holds after the loop is
    returned. *)
Definition extract (k : nat) (warning advice : string) (fname : string)
  : IO section_data :=
  (in_data <- parse_lid fname ;;
   b <- section_bounds k warning advice in_data ;;
   all <- open_readlines fname ;;
   let lines := slice all (start b) (stop b) in
   let held := Rows [] in
   held <- lift (for_each append_body lines held) ;;
   ret held)%io.

Definition masses : string -> IO section_data :=
  extract 0 "Warning: No masses data available."
    "LAMMPS simulation can't run.".

Definition atoms : string -> IO section_data :=
  extract 1 "Warning: No atoms data available."
    "LAMMPS simulation can't run.".

Definition bonds : string -> IO section_data :=
  extract 2 "Warning: No atoms data available."
    "LAMMPS simulation may produce wrong results.".

Definition angles : string -> IO section_data :=
  extract 3 "Warning: No angles data available."
    "LAMMPS simulation may produce wrong results.".

Definition dihedrals : string -> IO section_data :=
  extract 4 "Warning: No dihedrals data available."
    "LAMMPS simulation may produce wrong results.".

Definition impropers : string -> IO section_data :=
  extract 5 "Warning: No impropers data available."
    "LAMMPS simulation may produce wrong results.".

Definition extractors : list (string -> IO section_data) :=
  [masses; atoms; bonds; angles; dihedrals; impropers].

(** ** Vocabulary of the statements *)

(** The first token of a raw line is [kw]: the test [len(line) >= 1 and
    line[0] == kw] of the source. *)
Definition first_token_is (kw raw : string) : bool :=
  (1 <=? length (split raw))%nat && String.eqb (tok (split raw) 0) kw.

(** A raw line is blank when it has no token. *)
Definition blank (raw : string) : Prop := split raw = [].

(** The raw lines whose zero-based index [i] satisfies [a <= i < b], in file
    order. *)
Definition lines_between (lines : list string) (a b : Z) : list string :=
  map snd
    (List.filter
       (fun p => (a <=? Z.of_nat (fst p))%Z && (Z.of_nat (fst p) <? b)%Z)
       (enumerate lines)).

(** The tokenized forms of the lines that are not blank. *)
Definition nonblank_rows (lines : list string) : list (list string) :=
  List.filter (fun row => negb (Nat.eqb (length row) 0)) (map split lines).

(** [o] is one of the offsets of the table, [top] the greatest of them and
    [m] the least of those beyond [t]. *)
Definition table_offset (table : list (list Z)) (o : Z) : Prop :=
  exists j, offset_at table j = Returns o.

Definition greatest_offset (table : list (list Z)) (top : Z) : Prop :=
  table_offset table top /\
  forall o, table_offset table o -> (o <= top)%Z.

Definition next_offset (table : list (list Z)) (t m : Z) : Prop :=
  table_offset table m /\ (t < m)%Z /\
  forall o, table_offset table o -> (t < o)%Z -> (m <= o)%Z.

(** A new line character ends every line of the files used as examples. *)
Definition nl (s : string) : string := s +:+ String LF "".

(** ** Definitions used by the proofs *)

Definition entry (o : Z) : list Z := [o; 0%Z].

Definition locator_of (o0 o1 o2 o3 o4 o5 c : Z) : locator :=
  {| mas_section := entry o0; atm_section := entry o1;
     bnd_section := entry o2; ang_section := entry o3;
     dih_section := entry o4; imp_section := entry o5;
     counter := c |}.

(** What one line does to the offset recorded for [kw]. *)
Definition record (kw raw : string) (c o : Z) : Z :=
  if first_token_is kw raw then c else o.

(** What the lines do to it, the counter starting at [c]. *)
Fixpoint scan (kw : string) (lines : list string) (c o : Z) : Z :=
  match lines with
  | [] => o
  | raw :: rest => scan kw rest (c + 1) (record kw raw c o)
  end.

(** The offsets [parse_lid] records, one for each keyword of [sections]. *)
Definition offsets (lines : list string) : list Z :=
  map (fun kw => scan kw lines 0 0) sections.

(** The distance appended for an entry at [o] when the target is at [t]. *)
Definition distance (t o : Z) : Z :=
  if (o - t >? 0)%Z then (o - t)%Z else sentinel.

(** The world after the two messages of the absent case. *)
Definition warned (warning advice : string) (w : World) : World :=
  {| files := files w;
     console := console w ++ [Fore_RED +:+ warning; Fore_RED +:+ advice] |}.

(** Where the body of a section found at [t] ends in a file of [n] lines:
    at the end of the file for the last section, else at the next offset
    when it is nearer than the sentinel. *)
Definition body_end (table : list (list Z)) (t : Z) (n : nat) (e : Z)
  : Prop :=
  (greatest_offset table t /\ e = Z.of_nat n)
  \/ (next_offset table t e /\ (e - t < sentinel)%Z).

(** A line that falls through the three header shapes and whose first
    token is a section keyword: the line on which the loop breaks. *)
Definition header_stop (raw : string) : bool :=
  let line := split raw in
  negb ((2 <=? length line)%nat && contains (tok line 1) molecular_prop)
  && negb ((3 <=? length line)%nat && contains (tok line 1) types_prop)
  && negb ((4 <=? length line)%nat && contains (tok line 2) boundary_prop)
  && ((1 <=? length line)%nat && contains (tok line 0) sections).

(** A line that reaches the boundary branch with the last label as its
    third token: the second assignment of that branch is out of range. *)
Definition header_overflow (raw : string) : bool :=
  let line := split raw in
  negb ((2 <=? length line)%nat && contains (tok line 1) molecular_prop)
  && negb ((3 <=? length line)%nat && contains (tok line 1) types_prop)
  && ((4 <=? length line)%nat && String.eqb (tok line 2) "zhi").

Definition header_ok (h : header) : Prop :=
  length (molecular_data h) = 5%nat /\ length (types_data h) = 5%nat
  /\ length (boundary_data h) = 6%nat.

(** ** Example files *)

Definition world_of (fname content : string) : World :=
  {| files := {[ fname := content ]}; console := [] |}.

(** The six-line file of the concrete scenario. *)
Definition scenario : string :=
  nl "2 atoms" +:+ nl "1 atom types" +:+ nl "0.0 10.0 xlo xhi"
  +:+ nl "Atoms" +:+ nl "1 1 1 0.0 0.0 0.0 0.0"
  +:+ nl "2 1 1 0.0 1.0 0.0 0.0".

(** A file with three sections and an empty body for [Angles]. *)
Definition three_sections : string :=
  nl "LAMMPS data file" +:+ nl "Masses" +:+ nl "" +:+ nl "1 12.011"
  +:+ nl "" +:+ nl "Atoms # full" +:+ nl ""
  +:+ nl "1 1 1 0.0 0.0 0.0 0.0" +:+ nl "" +:+ nl "Angles" +:+ nl ""
  +:+ nl "Bonds" +:+ nl "" +:+ nl "1 1 1 2".

(** A file in which [Atoms] opens two blocks. *)
Definition twice_atoms : string :=
  nl "2 atoms" +:+ nl "Atoms" +:+ nl "1 1 1 0.0 0.0 0.0 0.0"
  +:+ nl "Atoms" +:+ nl "2 1 1 0.0 1.0 0.0 0.0".

(** A boundary line that carries the last label in third position. *)
Definition swapped_labels : string :=
  nl "2 atoms" +:+ nl "0.0 10.0 zhi zlo" +:+ nl "Atoms".

(** Two files whose first line starts with a section keyword; they differ
    after it. *)
Definition keyword_count_a : string := nl "Atoms atoms" +:+ nl "5 bonds".
Definition keyword_count_b : string := nl "Atoms atoms" +:+ nl "7 bonds".

(** [n] empty lines. *)
Fixpoint blank_lines (n : nat) : string :=
  match n with
  | O => EmptyString
  | S n' => String LF (blank_lines n')
  end.

(** A [Masses] section with one row, then [n] empty lines before [Atoms]. *)
Definition far_apart (n : nat) : string :=
  nl "LAMMPS data file" +:+ nl "Masses" +:+ nl "1 12.011"
  +:+ blank_lines n +:+ nl "Atoms".

(** As many empty lines as the sentinel distance. *)
Definition beyond : nat := Z.to_nat sentinel.

(** A string that holds no white space character. *)
Definition nospace (s : string) : Prop :=
  Forall (fun c => isspace c = false) (list_ascii_of_string s).

(** A line that records a count under [label]: the test [len(line) >= 2 and
    line[1] in molecular_prop] of the source with [line[1] == label]. *)
Definition count_line (label raw : string) : bool :=
  (2 <=? length (split raw))%nat && String.eqb (tok (split raw) 1) label.

(** What the lines do to the count kept under [label], from the value [v]. *)
Fixpoint count_scan (label : string) (lines : list string) (v : value)
  : value :=
  match lines with
  | [] => v
  | raw :: rest =>
      count_scan label rest
        (if count_line label raw then Str (tok (split raw) 0) else v)
  end.

(** A line that records a type count under [label]: the test
    [len(line) >= 3 and line[1] in types_prop] of the source with
    [line[1] == label]. *)
Definition type_line (label raw : string) : bool :=
  (3 <=? length (split raw))%nat && String.eqb (tok (split raw) 1) label.

(** What the lines do to the type count kept under [label]. *)
Fixpoint type_scan (label : string) (lines : list string) (v : value)
  : value :=
  match lines with
  | [] => v
  | raw :: rest =>
      type_scan label rest
        (if type_line label raw then Str (tok (split raw) 0) else v)
  end.

(** A header whose type lines do not all end in [types]. *)
Definition typed_twice : string :=
  nl "3 atom types" +:+ nl "4 atom" +:+ nl "5 atom kinds" +:+ nl "Masses".

(** A line that reaches the boundary branch: it falls through the two count
    shapes, has at least four tokens and a boundary label as third token. *)
Definition boundary_line (raw : string) : bool :=
  let line := split raw in
  negb ((2 <=? length line)%nat && contains (tok line 1) molecular_prop)
  && negb ((3 <=? length line)%nat && contains (tok line 1) types_prop)
  && ((4 <=? length line)%nat && contains (tok line 2) boundary_prop).

(** A header whose last boundary line carries an upper label in third
    position. *)
Definition upper_label_third : string :=
  nl "0.0 10.0 xlo xhi" +:+ nl "0.0 20.0 ylo yhi" +:+ nl "5.0 6.0 xhi xlo"
  +:+ nl "2 atoms" +:+ nl "Atoms".

(** A file whose first line opens the [Atoms] section. *)
Definition atoms_on_top : string :=
  nl "Atoms" +:+ nl "1 1 1 0.0 0.0 0.0 0.0" +:+ nl "2 1 1 0.0 1.0 0.0 0.0".

(** A header in which the number of atoms is given twice. *)
Definition counted_twice : string :=
  nl "2 atoms" +:+ nl "1 bonds" +:+ nl "7 atoms" +:+ nl "Atoms"
  +:+ nl "9 atoms".

(** Facts about every offset of a table given in full. *)
Ltac table_cases :=
  let j := fresh "j" in
  let Hj := fresh "Hj" in
  intros ? [j Hj];
  do 6 (destruct j as [|j];
        [vm_compute in Hj; injection Hj as <-; try lia; try discriminate|]);
  vm_compute in Hj; discriminate.

(** ** The locator loop *)

Section Locator.

Lemma parse_lid_body_step raw o0 o1 o2 o3 o4 o5 c :
  parse_lid_body raw (locator_of o0 o1 o2 o3 o4 o5 c) =
  Returns (Next (locator_of
    (record "Masses" raw c o0) (record "Atoms" raw c o1)
    (record "Bonds" raw c o2) (record "Angles" raw c o3)
    (record "Dihedrals" raw c o4) (record "Impropers" raw c o5)
    (c + 1))).
Proof.
  unfold parse_lid_body, parse_lid_match, record, first_token_is.
  destruct (1 <=? length (split raw))%nat; simpl; [|reflexivity].
  repeat
    (match goal with
     | |- context [String.eqb (tok (split raw) 0) ?kw] =>
         destruct (String.eqb (tok (split raw) 0) kw) eqn:?
     end; simpl; try reflexivity).
  all: repeat match goal with
         | H : String.eqb _ _ = true |- _ => apply String.eqb_eq in H
         end; congruence.
Qed.

Lemma parse_lid_loop lines : forall o0 o1 o2 o3 o4 o5 c,
  for_each parse_lid_body lines (locator_of o0 o1 o2 o3 o4 o5 c) =
  Returns (locator_of
    (scan "Masses" lines c o0) (scan "Atoms" lines c o1)
    (scan "Bonds" lines c o2) (scan "Angles" lines c o3)
    (scan "Dihedrals" lines c o4) (scan "Impropers" lines c o5)
    (c + Z.of_nat (length lines))).
Proof.
  induction lines as [|raw rest IH]; intros; simpl.
  - rewrite Z.add_0_r. reflexivity.
  - rewrite parse_lid_body_step. simpl. rewrite IH.
    do 2 f_equal. lia.
Qed.

Lemma parse_lid_lines_offsets lines :
  parse_lid_lines lines = Returns (map entry (offsets lines)).
Proof.
  unfold parse_lid_lines.
  change locator_init with (locator_of 0 0 0 0 0 0 0).
  rewrite parse_lid_loop. reflexivity.
Qed.

End Locator.

(** ** Where the recorded offset comes from *)

Section Scan.

Variable kw : string.

(** Either no line starts with [kw] and the offset is as before, or the
    offset is the counter value at the last line that does. *)
Lemma scan_cases lines : forall c o,
  (scan kw lines c o = o /\
   forall raw, In raw lines -> first_token_is kw raw = false)
  \/
  (exists i raw,
     lines !! i = Some raw /\ first_token_is kw raw = true /\
     scan kw lines c o = (c + Z.of_nat i)%Z /\
     forall j raw', (i < j)%nat -> lines !! j = Some raw' ->
                    first_token_is kw raw' = false).
Proof.
  induction lines as [|raw rest IH]; intros c o; simpl.
  - left. split; [reflexivity | intros ? []].
  - destruct (IH (c + 1)%Z (record kw raw c o))
      as [[Hscan Hnone] | (i & raw' & Hi & Hkw & Hscan & Hlast)].
    + unfold record in *.
      destruct (first_token_is kw raw) eqn:Hraw.
      * right. exists 0%nat, raw. repeat split; try assumption.
        -- rewrite Hscan. lia.
        -- intros [|j] raw' Hj Hlook; [lia|].
           simpl in Hlook. apply Hnone.
           apply list_elem_of_In. eapply list_elem_of_lookup_2; eassumption.
      * left. split; [assumption|].
        intros raw' [<- | Hin]; [assumption | auto].
    + right. exists (S i), raw'. repeat split; try assumption.
      * rewrite Hscan. lia.
      * intros [|j] raw'' Hj Hlook; [lia|].
        simpl in Hlook. apply (Hlast j); [lia | assumption].
Qed.

Lemma scan_absent lines c o :
  (forall raw, In raw lines -> first_token_is kw raw = false) ->
  scan kw lines c o = o.
Proof.
  intros Hnone.
  destruct (scan_cases lines c o)
    as [[Hscan _] | (i & raw & Hi & Hkw & _)]; [assumption|].
  apply list_elem_of_lookup_2, list_elem_of_In, Hnone in Hi. congruence.
Qed.

Lemma scan_last lines c o i raw :
  lines !! i = Some raw -> first_token_is kw raw = true ->
  (forall j raw', (i < j)%nat -> lines !! j = Some raw' ->
                  first_token_is kw raw' = false) ->
  scan kw lines c o = (c + Z.of_nat i)%Z.
Proof.
  intros Hi Hkw Hlast.
  destruct (scan_cases lines c o)
    as [[_ Hnone] | (i' & raw' & Hi' & Hkw' & Hscan & Hlast')].
  - apply list_elem_of_lookup_2, list_elem_of_In, Hnone in Hi. congruence.
  - destruct (Nat.lt_trichotomy i i') as [Hlt | [-> | Hgt]].
    + rewrite (Hlast i' raw' Hlt Hi') in Hkw'. discriminate.
    + assumption.
    + rewrite (Hlast' i raw Hgt Hi) in Hkw. discriminate.
Qed.

Lemma scan_nonneg lines : forall c o,
  (0 <= c)%Z -> (0 <= o)%Z -> (0 <= scan kw lines c o)%Z.
Proof.
  induction lines as [|raw rest IH]; intros c o Hc Ho; simpl; [assumption|].
  apply IH; [lia|]. unfold record. destruct (first_token_is kw raw); lia.
Qed.

Lemma scan_app l1 l2 c o :
  scan kw (l1 ++ l2) c o =
  scan kw l2 (c + Z.of_nat (length l1)) (scan kw l1 c o).
Proof.
  revert c o. induction l1 as [|raw rest IH]; intros c o; simpl.
  - rewrite Z.add_0_r. reflexivity.
  - rewrite IH. f_equal. lia.
Qed.

End Scan.

(** ** Facts about the primitives *)

Section Primitives.

Lemma index_from_found {A} `{EqDecision A} (x : A) l : forall a,
  In x l ->
  exists i, index_from a x l = Returns (a + i)%nat /\ l !! i = Some x.
Proof.
  induction l as [|y rest IH]; intros a Hin; [destruct Hin|].
  simpl. destruct (decide (y = x)) as [->|Hne].
  - exists 0%nat. rewrite Nat.add_0_r. split; reflexivity.
  - destruct Hin as [Heq | Hin]; [congruence|].
    destruct (IH (S a) Hin) as (i & Hidx & Hlook).
    exists (S i). rewrite Hidx. split; [f_equal; lia | assumption].
Qed.

Lemma index_found {A} `{EqDecision A} (x : A) l :
  In x l -> exists i, index x l = Returns i /\ l !! i = Some x.
Proof.
  intros Hin. destruct (index_from_found x l 0%nat Hin) as (i & Hidx & Hlook).
  exists i. split; assumption.
Qed.

Lemma fold_least rest : forall x,
  let v := fold_left (fun m y => if (y <? m)%Z then y else m) rest x in
  In v (x :: rest) /\ forall y, In y (x :: rest) -> (v <= y)%Z.
Proof.
  induction rest as [|z rest IH]; intros x; simpl.
  - split; [left; reflexivity | intros y [<- | []]; lia].
  - destruct (IH (if (z <? x)%Z then z else x)) as [Hin Hle].
    simpl in Hin, Hle. split.
    + destruct Hin as [Heq | Hin]; [|right; right; assumption].
      rewrite <- Heq. destruct (z <? x)%Z; [right; left|left]; reflexivity.
    + intros y [<- | [<- | Hy]].
      * specialize (Hle _ (or_introl eq_refl)).
        destruct (Z.ltb_spec z x); lia.
      * specialize (Hle _ (or_introl eq_refl)).
        destruct (Z.ltb_spec z x); lia.
      * apply Hle. right. assumption.
Qed.

Lemma min_least l :
  l <> [] ->
  exists v, Py.min l = Returns v /\ In v l /\
            forall y, In y l -> (v <= y)%Z.
Proof.
  destruct l as [|x rest]; [congruence|]. intros _.
  eexists. split; [reflexivity|]. apply fold_least.
Qed.

Lemma list_gt_entry y m : list_gt (entry y) (entry m) = (m <? y)%Z.
Proof.
  unfold entry. simpl. destruct (Z.eqb_spec y m) as [->|Hne].
  - rewrite Z.ltb_irrefl. reflexivity.
  - reflexivity.
Qed.

Lemma fold_greatest rest : forall x,
  exists top,
    fold_left (fun m y => if list_gt y m then y else m)
      (map entry rest) (entry x) = entry top /\
    In top (x :: rest) /\ forall o, In o (x :: rest) -> (o <= top)%Z.
Proof.
  induction rest as [|z rest IH]; intros x; cbn [map fold_left].
  - exists x. split; [reflexivity|].
    split; [left; reflexivity | intros o [<- | []]; lia].
  - rewrite list_gt_entry.
    destruct (Z.ltb_spec x z) as [Hlt | Hge].
    + destruct (IH z) as (top & Hfold & Hin & Hle).
      exists top. split; [assumption|]. split.
      * right. assumption.
      * intros o [<- | Ho]; [|apply Hle; assumption].
        specialize (Hle z (or_introl eq_refl)). lia.
    + destruct (IH x) as (top & Hfold & Hin & Hle).
      exists top. split; [assumption|]. split.
      * destruct Hin as [<- | Hin]; [left; reflexivity | right; right; assumption].
      * intros o [<- | [<- | Ho]].
        -- apply Hle. left. reflexivity.
        -- specialize (Hle x (or_introl eq_refl)). lia.
        -- apply Hle. right. assumption.
Qed.

Lemma max_entries os :
  os <> [] ->
  exists top, Py.max (map entry os) = Returns (entry top) /\
              In top os /\ forall o, In o os -> (o <= top)%Z.
Proof.
  destruct os as [|x rest]; [congruence|]. intros _.
  destruct (fold_greatest rest x) as (top & Hfold & Hin & Hle).
  exists top. simpl. rewrite Hfold. auto.
Qed.

Lemma offset_at_entries os k :
  offset_at (map entry os) k =
  match os !! k with
  | Some o => Returns o
  | None => Raises IndexError
  end.
Proof.
  unfold offset_at, getitem. revert k.
  induction os as [|o rest IH]; intros [|k]; simpl; try reflexivity.
  apply IH.
Qed.

Lemma table_offset_entries os o :
  table_offset (map entry os) o <-> In o os.
Proof.
  unfold table_offset. split.
  - intros [j Hj]. rewrite offset_at_entries in Hj.
    destruct (os !! j) eqn:Hlook; [|discriminate].
    injection Hj as ->. apply list_elem_of_In.
    eapply list_elem_of_lookup_2; eassumption.
  - intros Hin. apply list_elem_of_In, list_elem_of_lookup_1 in Hin.
    destruct Hin as [j Hj]. exists j.
    rewrite offset_at_entries, Hj. reflexivity.
Qed.

End Primitives.

(** ** The pieces of an extractor *)

Section Pieces.

Lemma distance_body_entry table k t i o acc :
  offset_at table k = Returns t ->
  distance_body table k (i, entry o) acc =
  Returns (Next (acc ++ [distance t o])).
Proof.
  intros Ht. unfold distance_body, distance. simpl. rewrite Ht. simpl.
  destruct (Z.eqb_spec (o - t) 0) as [Heq | Hne].
  - rewrite Heq. reflexivity.
  - destruct (Z.ltb_spec (o - t) 0) as [Hlt | Hge].
    + replace (o - t >? 0)%Z with false; [reflexivity|].
      symmetry. rewrite Z.gtb_ltb. apply Z.ltb_ge. lia.
    + replace (o - t >? 0)%Z with true; [reflexivity|].
      symmetry. rewrite Z.gtb_ltb. apply Z.ltb_lt. lia.
Qed.

Lemma distances_loop table k t :
  offset_at table k = Returns t ->
  forall os a acc,
    for_each (distance_body table k)
      (combine (seq a (length (map entry os))) (map entry os)) acc =
    Returns (acc ++ map (distance t) os).
Proof.
  intros Ht. induction os as [|o rest IH]; intros a acc.
  - simpl. rewrite app_nil_r. reflexivity.
  - cbn [map length seq combine for_each].
    rewrite (distance_body_entry _ _ t); [|assumption].
    cbn [Py.bind]. rewrite IH, <- app_assoc. reflexivity.
Qed.

Lemma distances_of_table os k t :
  offset_at (map entry os) k = Returns t ->
  for_each (distance_body (map entry os) k)
    (enumerate (map entry os)) [] =
  Returns (map (distance t) os).
Proof.
  intros Ht. unfold enumerate.
  rewrite (distances_loop _ _ t Ht). reflexivity.
Qed.

Lemma append_loop lines : forall rows,
  for_each append_body lines (Rows rows) =
  Returns (Rows (rows ++ nonblank_rows lines)).
Proof.
  unfold nonblank_rows.
  induction lines as [|raw rest IH]; intros rows; simpl.
  - rewrite app_nil_r. reflexivity.
  - unfold append_body at 1.
    destruct (split raw) as [|tk tks] eqn:Hsplit; simpl.
    + apply IH.
    + rewrite IH, <- app_assoc. reflexivity.
Qed.

(** A slice with bounds that are not negative keeps the lines whose index
    is in the range. *)
Lemma between_take_drop (lines : list string) a b : forall s : nat,
  map snd
    (List.filter
       (fun p => (a <=? Z.of_nat (fst p))%Z && (Z.of_nat (fst p) <? b)%Z)
       (combine (seq s (length lines)) lines)) =
  take (Z.to_nat (b - Z.max a (Z.of_nat s)))
    (drop (Z.to_nat (a - Z.of_nat s)) lines).
Proof.
  induction lines as [|x rest IH]; intros s.
  - simpl. rewrite drop_nil, take_nil. reflexivity.
  - cbn [length seq combine List.filter fst].
    destruct (Z.leb_spec a (Z.of_nat s)) as [Hle | Hgt];
      [destruct (Z.ltb_spec (Z.of_nat s) b) as [Hlt | Hge]|];
      cbn [andb map snd]; rewrite IH.
    + replace (Z.to_nat (a - Z.of_nat s)) with 0%nat by lia.
      replace (Z.to_nat (a - Z.of_nat (S s))) with 0%nat by lia.
      rewrite !drop_0.
      replace (Z.to_nat (b - Z.max a (Z.of_nat s)))
        with (S (Z.to_nat (b - Z.max a (Z.of_nat (S s))))) by lia.
      reflexivity.
    + replace (Z.to_nat (b - Z.max a (Z.of_nat s))) with 0%nat by lia.
      replace (Z.to_nat (b - Z.max a (Z.of_nat (S s)))) with 0%nat by lia.
      reflexivity.
    + replace (Z.to_nat (a - Z.of_nat s))
        with (S (Z.to_nat (a - Z.of_nat (S s)))) by lia.
      replace (Z.max a (Z.of_nat (S s))) with (Z.max a (Z.of_nat s)) by lia.
      reflexivity.
Qed.

Lemma slice_between lines a b :
  (0 <= a)%Z -> (0 <= b)%Z ->
  slice lines a (Some b) = lines_between lines a b.
Proof.
  intros Ha Hb. unfold lines_between, enumerate, slice, clamp.
  rewrite between_take_drop.
  replace (a <? 0)%Z with false by (symmetry; apply Z.ltb_ge; lia).
  replace (b <? 0)%Z with false by (symmetry; apply Z.ltb_ge; lia).
  change (Z.of_nat 0) with 0%Z.
  rewrite Z.max_l, Z.sub_0_r by lia.
  set (len := Z.of_nat (length lines)).
  destruct (Z.le_gt_cases len a) as [Hout | Hin].
  - rewrite !drop_ge by lia. rewrite !take_nil. reflexivity.
  - rewrite (Z.min_l a len) by lia.
    destruct (Z.le_gt_cases b len) as [Hb' | Hb'].
    + rewrite Z.min_l by lia. reflexivity.
    + rewrite Z.min_r by lia.
      rewrite !take_ge; [reflexivity | |]; rewrite length_drop; lia.
Qed.

Lemma slice_open lines a :
  (0 <= a)%Z ->
  slice lines a None =
  lines_between lines a (Z.of_nat (length lines)).
Proof.
  intros Ha. rewrite <- slice_between by lia.
  unfold slice, clamp.
  replace (Z.of_nat (length lines) <? 0)%Z with false
    by (symmetry; apply Z.ltb_ge; lia).
  rewrite Z.min_id. reflexivity.
Qed.

Lemma slice_absent {A} (l : list A) : slice l (-1) (Some (-1)%Z) = [].
Proof.
  unfold slice, clamp. simpl (_ <? _)%Z. cbv iota.
  rewrite Z.sub_diag. reflexivity.
Qed.

End Pieces.

(** ** The slice an extractor chooses *)

Section Bounds.

Variables (k : nat) (warning advice : string).

Lemma section_bounds_absent os w :
  os !! k = Some 0%Z ->
  section_bounds k warning advice (map entry os) w =
  (Returns {| data := Some PyNone; start := -1; stop := Some (-1)%Z |},
   warned warning advice w).
Proof.
  intros Hk. unfold section_bounds, IOMonad.bind, lift, print, ret, warned.
  rewrite offset_at_entries, Hk. simpl. rewrite <- app_assoc. reflexivity.
Qed.

Lemma section_bounds_last os w t :
  os !! k = Some t -> t <> 0%Z ->
  (forall o, In o os -> (o <= t)%Z) ->
  section_bounds k warning advice (map entry os) w =
  (Returns {| data := None; start := t + 1; stop := None |}, w).
Proof.
  intros Hk Ht Htop.
  assert (Hin : In t os)
    by (apply list_elem_of_In; eapply list_elem_of_lookup_2; eassumption).
  destruct (max_entries os) as (top & Hmax & Hintop & Hle).
  { intros ->. destruct Hin. }
  assert (top = t) as -> by (specialize (Htop _ Hintop); specialize (Hle _ Hin); lia).
  unfold section_bounds, IOMonad.bind, lift, ret.
  rewrite offset_at_entries, Hk.
  replace (t =? 0)%Z with false by (symmetry; apply Z.eqb_neq; assumption).
  rewrite Hmax. cbn [getitem entry lookup list_lookup].
  rewrite Z.eqb_refl. reflexivity.
Qed.

Lemma section_bounds_inner os w t m :
  os !! k = Some t -> t <> 0%Z ->
  In m os -> (t < m)%Z ->
  (forall o, In o os -> (t < o)%Z -> (m <= o)%Z) ->
  (m - t < sentinel)%Z ->
  section_bounds k warning advice (map entry os) w =
  (Returns {| data := None; start := t + 1; stop := Some m |}, w).
Proof.
  intros Hk Ht Hm Htm Hnext Hnear.
  destruct (max_entries os) as (top & Hmax & Hintop & Hle).
  { intros ->. destruct Hm. }
  assert (Hoff : offset_at (map entry os) k = Returns t)
    by (rewrite offset_at_entries, Hk; reflexivity).
  destruct (min_least (map (distance t) os))
    as (least & Hmin & Hinleast & Hleast).
  { intros Hnil. apply map_eq_nil in Hnil. subst os. destruct Hm. }
  destruct (index_found least _ Hinleast) as (i & Hidx & Hlook).
  assert (Hi : os !! i = Some m).
  { assert (Hpos : (least <= m - t)%Z).
    { apply Hleast. apply in_map_iff. exists m. split; [|assumption].
      unfold distance. destruct (Z.gtb_spec (m - t) 0); [reflexivity | lia]. }
    clear - Hlook Hpos Hnear Hnext Htm.
    revert i Hlook. induction os as [|o rest IH]; intros [|i] Hlook;
      simpl in Hlook; try discriminate.
    - injection Hlook as Hd. unfold distance in Hd.
      destruct (Z.gtb_spec (o - t) 0) as [Hgt | Hle]; [|lia].
      assert (m <= o)%Z by (apply Hnext; [left; reflexivity | lia]).
      simpl. f_equal. lia.
    - simpl. apply IH; [|assumption].
      intros o' Ho'. apply Hnext. right. assumption. }
  unfold section_bounds, IOMonad.bind, lift, ret.
  rewrite Hoff.
  replace (t =? 0)%Z with false by (symmetry; apply Z.eqb_neq; assumption).
  rewrite Hmax. cbn [getitem entry lookup list_lookup].
  replace (t =? top)%Z with false
    by (symmetry; apply Z.eqb_neq; specialize (Hle _ Hm); lia).
  rewrite (distances_of_table _ _ t Hoff), Hmin, Hidx.
  rewrite offset_at_entries, Hi. reflexivity.
Qed.

(** The choice reads the world only to print: the files stay and the
    outcome is the same in every world. *)
Lemma section_bounds_files table w :
  files (snd (section_bounds k warning advice table w)) = files w.
Proof.
  unfold section_bounds, IOMonad.bind, lift, print, ret.
  repeat (match goal with
          | |- context [match ?x with _ => _ end] => destruct x
          end; simpl; try reflexivity).
Qed.

Lemma section_bounds_outcome table w w' :
  fst (section_bounds k warning advice table w) =
  fst (section_bounds k warning advice table w').
Proof.
  unfold section_bounds, IOMonad.bind, lift, print, ret.
  repeat (match goal with
          | |- context [match ?x with _ => _ end] => destruct x
          end; simpl; try reflexivity).
Qed.

(** An extractor on a file that exists, once its slice is known. *)
Lemma extract_run fname w content b w' :
  files w !! fname = Some content ->
  section_bounds k warning advice
    (map entry (offsets (readlines content))) w = (Returns b, w') ->
  extract k warning advice fname w =
  (Returns (Rows (nonblank_rows
                    (slice (readlines content) (start b) (stop b)))), w').
Proof.
  intros Hfile Hb.
  assert (Hfiles : files w' = files w).
  { change w' with (snd (Returns b, w')). rewrite <- Hb.
    apply section_bounds_files. }
  unfold extract, parse_lid, IOMonad.bind, open_readlines, lift, ret.
  rewrite Hfile, parse_lid_lines_offsets, Hb, Hfiles, Hfile.
  rewrite append_loop. reflexivity.
Qed.

End Bounds.

(** ** The top-level functions on a file that exists *)

Section Runs.

Lemma parse_lid_run fname w content :
  files w !! fname = Some content ->
  parse_lid fname w =
  (Returns (map entry (offsets (readlines content))), w).
Proof.
  intros Hfile. unfold parse_lid, IOMonad.bind, open_readlines, lift.
  rewrite Hfile, parse_lid_lines_offsets. reflexivity.
Qed.

Lemma parse_lid_table fname w content table :
  files w !! fname = Some content ->
  fst (parse_lid fname w) = Returns table ->
  table = map entry (offsets (readlines content)).
Proof.
  intros Hfile Htable. rewrite (parse_lid_run _ _ _ Hfile) in Htable.
  cbn [fst] in Htable. injection Htable as <-. reflexivity.
Qed.

Lemma offsets_nonneg lines o : In o (offsets lines) -> (0 <= o)%Z.
Proof.
  unfold offsets. intros Hin. apply in_map_iff in Hin.
  destruct Hin as (kw & <- & _). apply scan_nonneg; lia.
Qed.

Lemma extractors_extract k f :
  extractors !! k = Some f ->
  exists warning advice, f = extract k warning advice.
Proof.
  intros Hf. do 6 (destruct k as [|k]; [injection Hf as <-; eauto|]).
  discriminate.
Qed.

Lemma extractors_In f :
  In f extractors -> exists k, extractors !! k = Some f.
Proof.
  intros Hin. apply list_elem_of_In, list_elem_of_lookup_1 in Hin. assumption.
Qed.

Lemma nonblank_rows_blank lines :
  (forall raw, In raw lines -> blank raw) -> nonblank_rows lines = [].
Proof.
  unfold nonblank_rows, blank.
  induction lines as [|raw rest IH]; intros Hblank; [reflexivity|].
  simpl. rewrite (Hblank raw) by (left; reflexivity). simpl.
  apply IH. intros raw' Hin. apply Hblank. right. assumption.
Qed.

Lemma extract_present k warning advice fname w content table t e :
  files w !! fname = Some content ->
  fst (parse_lid fname w) = Returns table ->
  offset_at table k = Returns t ->
  t <> 0%Z ->
  body_end table t (length (readlines content)) e ->
  extract k warning advice fname w =
  (Returns (Rows (nonblank_rows
                    (lines_between (readlines content) (t + 1) e))), w).
Proof.
  intros Hfile Htable Hoff Ht Hend.
  rewrite (parse_lid_table _ _ _ _ Hfile Htable) in *. clear Htable.
  set (lines := readlines content) in *.
  assert (Hk : offsets lines !! k = Some t).
  { rewrite offset_at_entries in Hoff.
    destruct (offsets lines !! k); congruence. }
  assert (Hpos : (0 <= t)%Z).
  { apply (offsets_nonneg lines), list_elem_of_In.
    eapply list_elem_of_lookup_2; eassumption. }
  destruct Hend as [[[_ Htop] ->] | [(Hm & Htm & Hnext) Hnear]].
  - rewrite (extract_run k warning advice fname w content
               {| data := None; start := t + 1; stop := None |} w Hfile).
    + simpl. fold lines. rewrite slice_open by lia. reflexivity.
    + apply section_bounds_last; try assumption.
      intros o Ho. apply Htop, table_offset_entries. assumption.
  - rewrite (extract_run k warning advice fname w content
               {| data := None; start := t + 1; stop := Some e |} w Hfile).
    + simpl. fold lines. rewrite slice_between by lia. reflexivity.
    + apply section_bounds_inner; try assumption.
      * apply table_offset_entries. assumption.
      * intros o Ho. apply Hnext, table_offset_entries. assumption.
Qed.

Lemma extract_absent k warning advice fname w content table :
  files w !! fname = Some content ->
  fst (parse_lid fname w) = Returns table ->
  offset_at table k = Returns 0%Z ->
  extract k warning advice fname w =
  (Returns (Rows []), warned warning advice w).
Proof.
  intros Hfile Htable Hoff.
  rewrite (parse_lid_table _ _ _ _ Hfile Htable) in *. clear Htable.
  assert (Hk : offsets (readlines content) !! k = Some 0%Z).
  { rewrite offset_at_entries in Hoff.
    destruct (offsets (readlines content) !! k); congruence. }
  rewrite (extract_run k warning advice fname w content
             {| data := Some PyNone; start := -1; stop := Some (-1)%Z |}
             (warned warning advice w) Hfile).
  - simpl. rewrite slice_absent. reflexivity.
  - apply section_bounds_absent. assumption.
Qed.

Lemma extract_files k warning advice fname w :
  files (snd (extract k warning advice fname w)) = files w.
Proof.
  unfold extract, parse_lid, IOMonad.bind, open_readlines, lift, ret.
  destruct (files w !! fname) as [content|]; [|reflexivity].
  destruct (parse_lid_lines (readlines content)) as [table|]; [|reflexivity].
  pose proof (section_bounds_files k warning advice table w) as Hsame.
  destruct (section_bounds k warning advice table w) as [[b|e] w'];
    simpl in Hsame; [|assumption].
  destruct (files w' !! fname); [|assumption].
  destruct (for_each append_body _ _); assumption.
Qed.

Lemma extract_outcome k warning advice fname1 w1 fname2 w2 :
  option_map readlines (files w1 !! fname1) =
  option_map readlines (files w2 !! fname2) ->
  fst (extract k warning advice fname1 w1) =
  fst (extract k warning advice fname2 w2).
Proof.
  intros Hlines.
  unfold extract, parse_lid, IOMonad.bind, open_readlines, lift, ret.
  destruct (files w1 !! fname1) as [c1|] eqn:H1;
    destruct (files w2 !! fname2) as [c2|] eqn:H2;
    simpl in Hlines; try discriminate; [|reflexivity].
  injection Hlines as Hlines. rewrite Hlines.
  destruct (parse_lid_lines (readlines c2)) as [table|]; [|reflexivity].
  pose proof (section_bounds_files k warning advice table w1) as F1.
  pose proof (section_bounds_files k warning advice table w2) as F2.
  pose proof (section_bounds_outcome k warning advice table w1 w2) as Hsame.
  destruct (section_bounds k warning advice table w1) as [r1 w1'].
  destruct (section_bounds k warning advice table w2) as [r2 w2'].
  simpl in F1, F2, Hsame. subst r2.
  destruct r1 as [b|e]; [|reflexivity].
  rewrite F1, F2, H1, H2, Hlines.
  destruct (for_each append_body _ _); reflexivity.
Qed.

End Runs.

(** ** The header loop *)

Section Header.

Lemma lid_header_body_stop raw h :
  header_stop raw = true -> lid_header_body raw h = Returns (Break h).
Proof.
  unfold header_stop, lid_header_body. cbv zeta.
  intros Hstop.
  destruct ((2 <=? length (split raw))%nat
            && contains (tok (split raw) 1) molecular_prop); [discriminate|].
  destruct ((3 <=? length (split raw))%nat
            && contains (tok (split raw) 1) types_prop); [discriminate|].
  destruct ((4 <=? length (split raw))%nat
            && contains (tok (split raw) 2) boundary_prop); [discriminate|].
  cbn [negb andb] in Hstop. rewrite Hstop. reflexivity.
Qed.

Lemma for_each_break {E S} (body : E -> S -> outcome (flow S)) x post :
  (forall s, body x s = Returns (Break s)) ->
  forall pre s, for_each body (pre ++ x :: post) s = for_each body pre s.
Proof.
  intros Hbreak. induction pre as [|y pre IH]; intros s; simpl.
  - rewrite Hbreak. reflexivity.
  - destruct (body y s) as [[s'|s']|e]; simpl; auto.
Qed.

Lemma contains_In x l : contains x l = true -> In x l.
Proof.
  unfold contains. intros H. apply existsb_exists in H.
  destruct H as (y & Hin & Heq). apply String.eqb_eq in Heq. congruence.
Qed.

Lemma setitem_in_range {A} (l : list A) i x :
  (i < length l)%nat ->
  setitem l i x = Returns (<[i:=x]> l).
Proof.
  intros Hlt. unfold setitem.
  destruct (Nat.ltb_spec i (length l)); [reflexivity | lia].
Qed.

Lemma lid_header_body_returns raw h :
  header_ok h -> header_overflow raw = false ->
  exists h', header_ok h' /\
    (lid_header_body raw h = Returns (Next h')
     \/ lid_header_body raw h = Returns (Break h')).
Proof.
  intros (Hm & Ht & Hb). unfold header_overflow, lid_header_body. cbv zeta.
  destruct ((2 <=? length (split raw))%nat
            && contains (tok (split raw) 1) molecular_prop) eqn:C1.
  { intros _. apply andb_prop in C1. destruct C1 as [_ C1].
    apply contains_In in C1. unfold molecular_prop in C1 at 1.
    simpl in C1.
    repeat (destruct C1 as [<- | C1];
            [cbn [index index_from decide]; simpl;
             rewrite setitem_in_range by lia; simpl;
             eexists; split; [|left; reflexivity];
             repeat split; simpl; rewrite ?length_insert; assumption|]).
    destruct C1. }
  destruct ((3 <=? length (split raw))%nat
            && contains (tok (split raw) 1) types_prop) eqn:C2.
  { intros _. apply andb_prop in C2. destruct C2 as [_ C2].
    apply contains_In in C2. unfold types_prop in C2 at 1.
    simpl in C2.
    repeat (destruct C2 as [<- | C2];
            [cbn [index index_from decide]; simpl;
             rewrite setitem_in_range by lia; simpl;
             eexists; split; [|left; reflexivity];
             repeat split; simpl; rewrite ?length_insert; assumption|]).
    destruct C2. }
  destruct ((4 <=? length (split raw))%nat
            && contains (tok (split raw) 2) boundary_prop) eqn:C3.
  { apply andb_prop in C3. destruct C3 as [Hlen C3]. rewrite Hlen.
    cbn [negb andb]. intros Hzhi.
    apply contains_In in C3. unfold boundary_prop in C3 at 1.
    simpl in C3.
    repeat (destruct C3 as [E | C3];
            [rewrite <- E in *; clear E; simpl in Hzhi;
             first
               [ discriminate Hzhi
               | cbn [index index_from decide]; simpl;
                 rewrite setitem_in_range by lia; simpl;
                 rewrite setitem_in_range by (rewrite length_insert; lia);
                 simpl;
                 eexists; split; [|left; reflexivity];
                 repeat split; simpl; rewrite ?length_insert; assumption ]
            |]).
    destruct C3. }
  intros _.
  destruct ((1 <=? length (split raw))%nat
            && contains (tok (split raw) 0) sections);
    exists h; split; auto; repeat split; assumption.
Qed.

(** Without such a line the header reader returns. *)
Lemma lid_header_lines_returns lines :
  (forall raw, In raw lines -> header_overflow raw = false) ->
  exists r, lid_header_lines lines = Returns r.
Proof.
  intros Hfine. unfold lid_header_lines.
  assert (Hloop : forall h, header_ok h ->
            exists h', for_each lid_header_body lines h = Returns h').
  { induction lines as [|raw rest IH]; intros h Hok; simpl.
    - eauto.
    - destruct (lid_header_body_returns raw h Hok) as (h' & Hok' & [-> | ->]).
      + apply Hfine. left. reflexivity.
      + simpl. apply IH; [|assumption].
        intros raw' Hin. apply Hfine. right. assumption.
      + simpl. eauto. }
  destruct (Hloop header_init) as [h' ->].
  - repeat split.
  - simpl. eauto.
Qed.

End Header.

(** ** The properties *)

(** C2. When the offset recorded for section [k] is not zero and is the
    greatest of the six offsets of the table, the extractor of [k] returns
    the tokenized non-blank lines from index [offset + 1] to the last line
    of the file. *)
Theorem last_section_body w fname content k f table t :
  files w !! fname = Some content ->
  extractors !! k = Some f ->
  fst (parse_lid fname w) = Returns table ->
  offset_at table k = Returns t ->
  t <> 0%Z ->
  greatest_offset table t ->
  f fname w =
  (Returns (Rows (nonblank_rows
     (lines_between (readlines content) (t + 1)
        (Z.of_nat (length (readlines content)))))), w).
Proof.
  intros Hfile Hf Htable Hoff Ht Htop.
  destruct (extractors_extract k f Hf) as (warning & advice & ->).
  eapply extract_present; try eassumption.
  left. split; [assumption | reflexivity].
Qed.

Lemma last_section_body_witness :
  bonds "system.data" (world_of "system.data" three_sections) =
  (Returns (Rows (nonblank_rows
     (lines_between (readlines three_sections) (11 + 1)
        (Z.of_nat (length (readlines three_sections)))))),
   world_of "system.data" three_sections).
Proof.
  apply (last_section_body _ _ three_sections 2 bonds
           [[1; 0]; [5; 0]; [11; 0]; [9; 0]; [0; 0]; [0; 0]]%Z 11%Z).
  - reflexivity.
  - reflexivity.
  - vm_compute. reflexivity.
  - reflexivity.
  - lia.
  - split; [exists 2%nat; reflexivity | table_cases].
Defined.

(** Below the sentinel distance the else branch finds the next section:
    when the offset [t] recorded for section [k] is not zero and is less
    than the greatest offset of the table, and the least table offset [m]
    beyond [t] satisfies [m - t < 5000000000000], the extractor of [k]
    returns the tokenized non-blank lines whose index lies in [t + 1, m),
    in file order. *)
Theorem inner_section_body w fname content k f table t top m :
  files w !! fname = Some content ->
  extractors !! k = Some f ->
  fst (parse_lid fname w) = Returns table ->
  offset_at table k = Returns t ->
  t <> 0%Z ->
  greatest_offset table top -> (t < top)%Z ->
  next_offset table t m ->
  (m - t < sentinel)%Z ->
  f fname w =
  (Returns (Rows (nonblank_rows
     (lines_between (readlines content) (t + 1) m))), w).
Proof.
  intros Hfile Hf Htable Hoff Ht _ _ Hnext Hnear.
  destruct (extractors_extract k f Hf) as (warning & advice & ->).
  eapply extract_present; try eassumption.
  right. split; assumption.
Qed.

Lemma inner_section_body_witness :
  masses "system.data" (world_of "system.data" three_sections) =
  (Returns (Rows (nonblank_rows
     (lines_between (readlines three_sections) (1 + 1) 5))),
   world_of "system.data" three_sections).
Proof.
  apply (inner_section_body _ _ three_sections 0 masses
           [[1; 0]; [5; 0]; [11; 0]; [9; 0]; [0; 0]; [0; 0]]%Z 1%Z 11%Z 5%Z).
  - reflexivity.
  - reflexivity.
  - vm_compute. reflexivity.
  - reflexivity.
  - lia.
  - split; [exists 2%nat; reflexivity | table_cases].
  - lia.
  - split; [exists 1%nat; reflexivity | split; [lia | table_cases]].
  - reflexivity.
Defined.

(** C4. For each of the six keywords, [parse_lid] records the index of the
    last line whose first token is the keyword, and 0 when there is none;
    the counter has advanced once for every line of the file. *)
Theorem parse_lid_last_occurrence w fname content k kw :
  files w !! fname = Some content ->
  sections !! k = Some kw ->
  exists s o,
    for_each parse_lid_body (readlines content) locator_init = Returns s /\
    counter s = Z.of_nat (length (readlines content)) /\
    parse_lid fname w = (Returns (table_of s), w) /\
    table_of s !! k = Some [o; 0%Z] /\
    ((forall i raw, readlines content !! i = Some raw ->
                    first_token_is kw raw = false) -> o = 0%Z) /\
    (forall i raw,
       readlines content !! i = Some raw ->
       first_token_is kw raw = true ->
       (forall j raw', (i < j)%nat -> readlines content !! j = Some raw' ->
                       first_token_is kw raw' = false) ->
       o = Z.of_nat i).
Proof.
  intros Hfile Hkw. set (lines := readlines content).
  exists (locator_of
            (scan "Masses" lines 0 0) (scan "Atoms" lines 0 0)
            (scan "Bonds" lines 0 0) (scan "Angles" lines 0 0)
            (scan "Dihedrals" lines 0 0) (scan "Impropers" lines 0 0)
            (Z.of_nat (length lines))), (scan kw lines 0 0).
  split; [|split; [|split; [|split; [|split]]]].
  - change locator_init with (locator_of 0 0 0 0 0 0 0).
    rewrite parse_lid_loop. reflexivity.
  - reflexivity.
  - rewrite (parse_lid_run _ _ _ Hfile). reflexivity.
  - do 6 (destruct k as [|k]; [injection Hkw as <-; reflexivity|]).
    discriminate.
  - intros Hnone. apply scan_absent. intros raw Hin.
    apply list_elem_of_In, list_elem_of_lookup_1 in Hin.
    destruct Hin as [i Hi]. eapply Hnone; eassumption.
  - intros i raw Hi Hraw Hlast.
    rewrite (scan_last kw lines 0 0 i raw Hi Hraw Hlast). lia.
Qed.

Lemma parse_lid_last_occurrence_witness :
  exists s o,
    for_each parse_lid_body (readlines twice_atoms) locator_init = Returns s /\
    counter s = Z.of_nat (length (readlines twice_atoms)) /\
    parse_lid "system.data" (world_of "system.data" twice_atoms) =
      (Returns (table_of s), world_of "system.data" twice_atoms) /\
    table_of s !! 1%nat = Some [o; 0%Z] /\
    ((forall i raw, readlines twice_atoms !! i = Some raw ->
                    first_token_is "Atoms" raw = false) -> o = 0%Z) /\
    (forall i raw,
       readlines twice_atoms !! i = Some raw ->
       first_token_is "Atoms" raw = true ->
       (forall j raw', (i < j)%nat -> readlines twice_atoms !! j = Some raw' ->
                       first_token_is "Atoms" raw' = false) ->
       o = Z.of_nat i).
Proof.
  apply (parse_lid_last_occurrence
           (world_of "system.data" twice_atoms) "system.data" twice_atoms
           1 "Atoms").
  - reflexivity.
  - reflexivity.
Defined.

(** C5, amended. The table entry of a keyword is its last occurrence: every
    line whose first token is the keyword has an index at most the recorded
    offset, and the line at the recorded offset is such a line; of the
    duplicates only the last one is kept. *)
Theorem parse_lid_duplicates_keep_last w fname content k kw i raw :
  files w !! fname = Some content ->
  sections !! k = Some kw ->
  readlines content !! i = Some raw ->
  first_token_is kw raw = true ->
  exists table o raw',
    parse_lid fname w = (Returns table, w) /\
    offset_at table k = Returns o /\
    (Z.of_nat i <= o)%Z /\
    readlines content !! Z.to_nat o = Some raw' /\
    first_token_is kw raw' = true.
Proof.
  intros Hfile Hkw Hi Hraw. set (lines := readlines content) in *.
  destruct (scan_cases kw lines 0 0)
    as [[_ Hnone] | (l & raw' & Hl & Hraw' & Hscan & Hlast)].
  { apply list_elem_of_lookup_2, list_elem_of_In, Hnone in Hi. congruence. }
  exists (map entry (offsets lines)), (Z.of_nat l), raw'.
  split; [apply parse_lid_run; assumption|].
  split.
  { rewrite offset_at_entries. unfold offsets.
    assert (Hk : map (fun kw => scan kw lines 0 0) sections !! k
                 = Some (scan kw lines 0 0)).
    { do 6 (destruct k as [|k]; [injection Hkw as <-; reflexivity|]).
      discriminate. }
    rewrite Hk, Hscan. f_equal; lia. }
  split.
  { destruct (Nat.le_gt_cases i l) as [Hle | Hgt]; [lia|].
    rewrite (Hlast i raw Hgt Hi) in Hraw. discriminate. }
  rewrite Nat2Z.id. split; assumption.
Qed.

Lemma parse_lid_duplicates_keep_last_witness :
  exists table o raw',
    parse_lid "system.data" (world_of "system.data" twice_atoms) =
      (Returns table, world_of "system.data" twice_atoms) /\
    offset_at table 1 = Returns o /\
    (Z.of_nat 1 <= o)%Z /\
    readlines twice_atoms !! Z.to_nat o = Some raw' /\
    first_token_is "Atoms" raw' = true.
Proof.
  apply (parse_lid_duplicates_keep_last
           (world_of "system.data" twice_atoms) "system.data" twice_atoms
           1 "Atoms" 1 (nl "Atoms")).
  - reflexivity.
  - reflexivity.
  - reflexivity.
  - reflexivity.
Defined.

(** C5 as stated fails: in [twice_atoms] the first line that starts with
    [Atoms] is line 1, and the table entry is 3. *)
Lemma parse_lid_first_occurrence_refuted :
  ~ (forall k kw i raw table o,
       sections !! k = Some kw ->
       readlines twice_atoms !! i = Some raw ->
       first_token_is kw raw = true ->
       (forall j raw', (j < i)%nat -> readlines twice_atoms !! j = Some raw' ->
                       first_token_is kw raw' = false) ->
       fst (parse_lid "system.data" (world_of "system.data" twice_atoms))
         = Returns table ->
       offset_at table k = Returns o ->
       o = Z.of_nat i).
Proof.
  intros Hfirst.
  specialize (Hfirst 1%nat "Atoms" 1%nat (nl "Atoms")
                [[0; 0]; [3; 0]; [0; 0]; [0; 0]; [0; 0]; [0; 0]]%Z 3%Z).
  assert (H : 3%Z = Z.of_nat 1); [|discriminate H].
  apply Hfirst; try reflexivity.
  intros [|j] raw' Hj Hlook; [|lia].
  vm_compute in Hlook. injection Hlook as <-. reflexivity.
Qed.

(** C6. When no line of the file has the keyword of section [k] as its first
    token, the table entry of [k] is 0 and the extractor of [k] returns a
    result with no body lines, after its two messages. *)
Theorem missing_section_absent w fname content k kw f :
  files w !! fname = Some content ->
  sections !! k = Some kw ->
  extractors !! k = Some f ->
  (forall raw, In raw (readlines content) -> first_token_is kw raw = false) ->
  exists table warning advice,
    parse_lid fname w = (Returns table, w) /\
    offset_at table k = Returns 0%Z /\
    f fname w = (Returns (Rows []), warned warning advice w).
Proof.
  intros Hfile Hkw Hf Hnone.
  destruct (extractors_extract k f Hf) as (warning & advice & ->).
  exists (map entry (offsets (readlines content))), warning, advice.
  assert (Hoff : offset_at (map entry (offsets (readlines content))) k
                 = Returns 0%Z).
  { rewrite offset_at_entries. unfold offsets.
    assert (Hk : map (fun kw => scan kw (readlines content) 0 0) sections !! k
                 = Some (scan kw (readlines content) 0 0)).
    { do 6 (destruct k as [|k]; [injection Hkw as <-; reflexivity|]).
      discriminate. }
    rewrite Hk, (scan_absent kw _ 0 0 Hnone). reflexivity. }
  split; [apply parse_lid_run; assumption|].
  split; [assumption|].
  eapply extract_absent; try eassumption.
  rewrite (parse_lid_run _ _ _ Hfile). reflexivity.
Qed.

Lemma missing_section_absent_witness :
  exists table warning advice,
    parse_lid "system.data" (world_of "system.data" scenario) =
      (Returns table, world_of "system.data" scenario) /\
    offset_at table 2 = Returns 0%Z /\
    bonds "system.data" (world_of "system.data" scenario) =
      (Returns (Rows []),
       warned warning advice (world_of "system.data" scenario)).
Proof.
  apply (missing_section_absent
           (world_of "system.data" scenario) "system.data" scenario
           2 "Bonds" bonds).
  - reflexivity.
  - reflexivity.
  - reflexivity.
  - intros raw Hin. vm_compute in Hin.
    repeat (destruct Hin as [<- | Hin]; [reflexivity|]). destruct Hin.
Defined.

(** C7. When the table offset of the target section is 0 the extractor
    returns the empty list, not [None]; a section that is present and whose
    body has no line with a token yields the same returned value. *)
Theorem absent_returns_empty_list w fname content k f table :
  files w !! fname = Some content ->
  extractors !! k = Some f ->
  fst (parse_lid fname w) = Returns table ->
  offset_at table k = Returns 0%Z ->
  fst (f fname w) = Returns (Rows []) /\
  fst (f fname w) <> Returns PyNone /\
  forall w' fname' content' table' t e,
    files w' !! fname' = Some content' ->
    fst (parse_lid fname' w') = Returns table' ->
    offset_at table' k = Returns t ->
    t <> 0%Z ->
    body_end table' t (length (readlines content')) e ->
    (forall raw, In raw (lines_between (readlines content') (t + 1) e) ->
                 blank raw) ->
    fst (f fname' w') = fst (f fname w).
Proof.
  intros Hfile Hf Htable Hoff.
  destruct (extractors_extract k f Hf) as (warning & advice & ->).
  rewrite (extract_absent k warning advice fname w content table)
    by assumption.
  cbn [fst]. split; [reflexivity|]. split; [discriminate|].
  intros w' fname' content' table' t e Hfile' Htable' Hoff' Ht Hend Hblank.
  rewrite (extract_present k warning advice fname' w' content' table' t e)
    by assumption.
  cbn [fst]. rewrite nonblank_rows_blank by assumption. reflexivity.
Qed.

Lemma absent_returns_empty_list_witness :
  fst (dihedrals "system.data" (world_of "system.data" three_sections))
    = Returns (Rows []) /\
  fst (dihedrals "system.data" (world_of "system.data" three_sections))
    <> Returns PyNone /\
  forall w' fname' content' table' t e,
    files w' !! fname' = Some content' ->
    fst (parse_lid fname' w') = Returns table' ->
    offset_at table' 4 = Returns t ->
    t <> 0%Z ->
    body_end table' t (length (readlines content')) e ->
    (forall raw, In raw (lines_between (readlines content') (t + 1) e) ->
                 blank raw) ->
    fst (dihedrals fname' w')
    = fst (dihedrals "system.data" (world_of "system.data" three_sections)).
Proof.
  apply (absent_returns_empty_list
           (world_of "system.data" three_sections) "system.data"
           three_sections 4 dihedrals
           [[1; 0]; [5; 0]; [11; 0]; [9; 0]; [0; 0]; [0; 0]]%Z).
  - reflexivity.
  - reflexivity.
  - vm_compute. reflexivity.
  - reflexivity.
Defined.

(** C8, amended. [lid_header] stops at a line that matches none of the three
    header shapes and whose first token is a section keyword: the result is
    that of the lines strictly before it, whatever follows. *)
Theorem lid_header_stops_at_break_line w fname content w' fname' content'
  pre raw post :
  files w !! fname = Some content ->
  files w' !! fname' = Some content' ->
  readlines content = pre ++ raw :: post ->
  readlines content' = pre ->
  header_stop raw = true ->
  fst (lid_header fname w) = fst (lid_header fname' w').
Proof.
  intros Hfile Hfile' Hlines Hpre Hstop.
  unfold lid_header, IOMonad.bind, open_readlines, lift.
  rewrite Hfile, Hfile', Hlines, Hpre. cbn [fst].
  unfold lid_header_lines.
  rewrite for_each_break; [reflexivity|].
  intros h. apply lid_header_body_stop. assumption.
Qed.

Lemma lid_header_stops_at_break_line_witness :
  fst (lid_header "system.data" (world_of "system.data" scenario)) =
  fst (lid_header "header.data"
         (world_of "header.data"
            (nl "2 atoms" +:+ nl "1 atom types" +:+ nl "0.0 10.0 xlo xhi"))).
Proof.
  apply (lid_header_stops_at_break_line
           (world_of "system.data" scenario) "system.data" scenario
           (world_of "header.data"
              (nl "2 atoms" +:+ nl "1 atom types" +:+ nl "0.0 10.0 xlo xhi"))
           "header.data"
           (nl "2 atoms" +:+ nl "1 atom types" +:+ nl "0.0 10.0 xlo xhi")
           [nl "2 atoms"; nl "1 atom types"; nl "0.0 10.0 xlo xhi"]
           (nl "Atoms")
           [nl "1 1 1 0.0 0.0 0.0 0.0"; nl "2 1 1 0.0 1.0 0.0 0.0"]).
  - reflexivity.
  - reflexivity.
  - reflexivity.
  - reflexivity.
  - reflexivity.
Defined.

(** C8 as stated fails: the first line of both files starts with the section
    keyword [Atoms] and is the same, nothing precedes it, and the headers
    differ through the line that follows it. *)
Lemma lid_header_reads_past_keyword_line :
  readlines keyword_count_a !! 0%nat = Some (nl "Atoms atoms") /\
  readlines keyword_count_b !! 0%nat = Some (nl "Atoms atoms") /\
  first_token_is "Atoms" (nl "Atoms atoms") = true /\
  contains "Atoms" sections = true /\
  fst (lid_header "a.data" (world_of "a.data" keyword_count_a)) =
    Returns ([Str "Atoms"; Str "5"; Int 0; Int 0; Int 0],
             [Int 0; Int 0; Int 0; Int 0; Int 0],
             [Int 0; Int 0; Int 0; Int 0; Int 0; Int 0]) /\
  fst (lid_header "b.data" (world_of "b.data" keyword_count_b)) =
    Returns ([Str "Atoms"; Str "7"; Int 0; Int 0; Int 0],
             [Int 0; Int 0; Int 0; Int 0; Int 0],
             [Int 0; Int 0; Int 0; Int 0; Int 0; Int 0]) /\
  fst (lid_header "a.data" (world_of "a.data" keyword_count_a)) <>
  fst (lid_header "b.data" (world_of "b.data" keyword_count_b)).
Proof.
  repeat split; try (vm_compute; reflexivity).
  vm_compute. discriminate.
Qed.

(** C9. The six-line scenario file: the header holds the strings ["2"],
    ["1"], ["0.0"] and ["10.0"]; the [Atoms] offset is 3 and every other
    entry is 0; [atoms] returns the two tokenized rows and every other
    extractor returns the result of an absent section. *)
Theorem scenario_results :
  let w := world_of "system.data" scenario in
  length (readlines scenario) = 6%nat /\
  fst (lid_header "system.data" w) =
    Returns ([Str "2"; Int 0; Int 0; Int 0; Int 0],
             [Str "1"; Int 0; Int 0; Int 0; Int 0],
             [Str "0.0"; Str "10.0"; Int 0; Int 0; Int 0; Int 0]) /\
  fst (parse_lid "system.data" w) =
    Returns [[0; 0]; [3; 0]; [0; 0]; [0; 0]; [0; 0]; [0; 0]]%Z /\
  fst (atoms "system.data" w) =
    Returns (Rows [["1"; "1"; "1"; "0.0"; "0.0"; "0.0"; "0.0"];
                   ["2"; "1"; "1"; "0.0"; "1.0"; "0.0"; "0.0"]]) /\
  fst (masses "system.data" w) = Returns (Rows []) /\
  fst (bonds "system.data" w) = Returns (Rows []) /\
  fst (angles "system.data" w) = Returns (Rows []) /\
  fst (dihedrals "system.data" w) = Returns (Rows []) /\
  fst (impropers "system.data" w) = Returns (Rows []).
Proof.
  cbv zeta. repeat split; vm_compute; reflexivity.
Qed.

(** C10. An extractor leaves the files as they are, a second call on the
    same file returns what the first call returned, and the returned value
    is the same wherever the file has the same lines. *)
Theorem extractor_deterministic w fname f :
  In f extractors ->
  files (snd (f fname w)) = files w /\
  fst (f fname (snd (f fname w))) = fst (f fname w) /\
  forall w' fname',
    option_map readlines (files w' !! fname') =
    option_map readlines (files w !! fname) ->
    fst (f fname' w') = fst (f fname w).
Proof.
  intros Hin. destruct (extractors_In f Hin) as [k Hk].
  destruct (extractors_extract k f Hk) as (warning & advice & ->).
  split; [apply extract_files|]. split.
  - apply extract_outcome. rewrite extract_files. reflexivity.
  - intros w' fname' Hsame. apply extract_outcome. assumption.
Qed.

Lemma extractor_deterministic_witness :
  let w := world_of "system.data" three_sections in
  files (snd (angles "system.data" w)) = files w /\
  fst (angles "system.data" (snd (angles "system.data" w)))
    = fst (angles "system.data" w) /\
  forall w' fname',
    option_map readlines (files w' !! fname') =
    option_map readlines (files w !! "system.data") ->
    fst (angles fname' w') = fst (angles "system.data" w).
Proof.
  apply (extractor_deterministic
           (world_of "system.data" three_sections) "system.data" angles).
  unfold extractors. simpl. tauto.
Defined.

(** C3 fails on the code. A boundary line whose third token is the last
    label makes [lid_header] raise [IndexError]: the write at position
    [index + 1] falls outside the six slots. *)
Theorem lid_header_last_label_raises :
  lid_header "system.data" (world_of "system.data" swapped_labels) =
  (Raises IndexError, world_of "system.data" swapped_labels).
Proof.
  vm_compute. reflexivity.
Qed.

(** ** A boundary beyond the sentinel distance *)

Section FarApart.

Variable n : nat.
Hypothesis far : (sentinel <= Z.of_nat n + 2)%Z.

Lemma universal_newlines_blank_lines s : forall m,
  universal_newlines (blank_lines m +:+ s) =
  blank_lines m +:+ universal_newlines s.
Proof.
  induction m as [|m IH]; [reflexivity|].
  simpl. rewrite IH. reflexivity.
Qed.

Lemma readlines_from_blank_lines s : forall m,
  readlines_from "" (blank_lines m +:+ s) =
  repeat (nl "") m ++ readlines_from "" s.
Proof.
  induction m as [|m IH]; [reflexivity|].
  simpl. rewrite IH. reflexivity.
Qed.

Lemma readlines_far_apart :
  readlines (far_apart n) =
  [nl "LAMMPS data file"; nl "Masses"; nl "1 12.011"]
  ++ repeat (nl "") n ++ [nl "Atoms"].
Proof.
  unfold readlines, far_apart. simpl.
  change ("" +:+ blank_lines n +:+ nl "Atoms")
    with (blank_lines n +:+ nl "Atoms").
  rewrite universal_newlines_blank_lines, readlines_from_blank_lines.
  reflexivity.
Qed.

Lemma scan_blank_repeat kw m c o : scan kw (repeat (nl "") m) c o = o.
Proof.
  apply scan_absent. intros raw Hin.
  apply repeat_spec in Hin. subst raw. reflexivity.
Qed.

Lemma offsets_far_apart :
  offsets (readlines (far_apart n)) =
  [1; Z.of_nat n + 3; 0; 0; 0; 0]%Z.
Proof.
  rewrite readlines_far_apart. unfold offsets, sections. cbn [map].
  rewrite !scan_app, !scan_blank_repeat, repeat_length.
  cbn [scan length]. unfold record.
  repeat match goal with
         | |- context [first_token_is ?a ?b] =>
             let v := eval vm_compute in (first_token_is a b) in
             change (first_token_is a b) with v
         end.
  cbv iota. repeat (f_equal; try lia).
Qed.

Lemma slice_backwards {A} (l : list A) a b :
  (0 <= b <= a)%Z -> slice l a (Some b) = [].
Proof.
  intros Hab. unfold slice, clamp.
  replace (a <? 0)%Z with false by (symmetry; apply Z.ltb_ge; lia).
  replace (b <? 0)%Z with false by (symmetry; apply Z.ltb_ge; lia).
  replace (Z.to_nat _) with 0%nat by lia. reflexivity.
Qed.

(** The only positive distance is not below the sentinel: the least
    distance is the sentinel and its first position is the target's own. *)
Lemma section_bounds_far warning advice w :
  section_bounds 0 warning advice
    (map entry [1; Z.of_nat n + 3; 0; 0; 0; 0]%Z) w =
  (Returns {| data := None; start := 1 + 1; stop := Some 1%Z |}, w).
Proof.
  set (B := (Z.of_nat n + 3)%Z).
  assert (HB : (sentinel + 1 <= B)%Z) by (unfold B; lia).
  assert (Hoff : offset_at (map entry [1; B; 0; 0; 0; 0]%Z) 0
                 = Returns 1%Z) by reflexivity.
  assert (Hmax : Py.max (map entry [1; B; 0; 0; 0; 0]%Z)
                 = Returns (entry B)).
  { cbn [Py.max map fold_left]. rewrite (list_gt_entry B 1).
    replace (1 <? B)%Z with true by (symmetry; apply Z.ltb_lt; lia).
    assert (Hneg : (B <? 0)%Z = false) by (apply Z.ltb_ge; lia).
    cbv iota.
    repeat (rewrite (list_gt_entry 0 B), Hneg; cbv iota).
    reflexivity. }
  unfold section_bounds, IOMonad.bind, lift, ret.
  rewrite Hoff. change (1 =? 0)%Z with false. cbv iota.
  rewrite (distances_of_table _ _ 1%Z Hoff), Hmax.
  cbn [getitem entry lookup list_lookup].
  replace (1 =? B)%Z with false by (symmetry; apply Z.eqb_neq; lia).
  assert (Hdist : map (distance 1) [1; B; 0; 0; 0; 0]%Z =
                  [sentinel; (B - 1)%Z; sentinel; sentinel; sentinel;
                   sentinel]).
  { cbn [map]. unfold distance.
    replace (B - 1 >? 0)%Z with true
      by (symmetry; rewrite Z.gtb_ltb; apply Z.ltb_lt; lia).
    reflexivity. }
  rewrite Hdist.
  assert (Hmin : Py.min [sentinel; (B - 1)%Z; sentinel; sentinel;
                         sentinel; sentinel] = Returns sentinel).
  { cbn [Py.min fold_left].
    replace (B - 1 <? sentinel)%Z with false
      by (symmetry; apply Z.ltb_ge; lia).
    reflexivity. }
  rewrite Hmin. reflexivity.
Qed.

Lemma masses_far_apart w :
  files w !! "system.data" = Some (far_apart n) ->
  masses "system.data" w = (Returns (Rows []), w).
Proof.
  intros Hfile. unfold masses.
  rewrite (extract_run 0 _ _ "system.data" w (far_apart n)
             {| data := None; start := 1 + 1; stop := Some 1%Z |} w Hfile).
  - cbn [start stop]. rewrite slice_backwards by lia. reflexivity.
  - rewrite offsets_far_apart. apply section_bounds_far.
Qed.

Lemma body_far_apart :
  nonblank_rows
    (lines_between (readlines (far_apart n)) (1 + 1) (Z.of_nat n + 3)) =
  [["1"; "12.011"]].
Proof.
  rewrite readlines_far_apart. unfold lines_between, enumerate.
  rewrite between_take_drop.
  replace (Z.to_nat (1 + 1 - Z.of_nat 0)) with 2%nat by lia.
  replace (Z.to_nat (Z.of_nat n + 3 - Z.max (1 + 1) (Z.of_nat 0)))
    with (S n) by lia.
  cbn [app drop take].
  rewrite take_app_length' by (symmetry; apply repeat_length).
  unfold nonblank_rows. cbn [map].
  change (split (nl "1 12.011")) with ["1"; "12.011"].
  cbn [List.filter length Nat.eqb negb].
  f_equal. apply nonblank_rows_blank.
  intros raw Hin. apply repeat_spec in Hin. subst raw. reflexivity.
Qed.

Lemma table_far_apart w :
  files w !! "system.data" = Some (far_apart n) ->
  let table := [[1; 0]; [Z.of_nat n + 3; 0]; [0; 0]; [0; 0]; [0; 0];
                [0; 0]]%Z in
  fst (parse_lid "system.data" w) = Returns table /\
  offset_at table 0 = Returns 1%Z /\
  greatest_offset table (Z.of_nat n + 3) /\
  next_offset table 1 (Z.of_nat n + 3).
Proof.
  intros Hfile table.
  assert (Hin : forall o, table_offset table o ->
                o = 1%Z \/ o = (Z.of_nat n + 3)%Z \/ o = 0%Z).
  { intros o [j Hj].
    do 6 (destruct j as [|j]; [injection Hj as <-; auto|]).
    discriminate. }
  split; [|split; [reflexivity|split; [split|split; [|split]]]].
  - rewrite (parse_lid_run _ _ _ Hfile), offsets_far_apart. reflexivity.
  - exists 1%nat. reflexivity.
  - intros o Ho. destruct (Hin o Ho) as [-> | [-> | ->]]; lia.
  - exists 1%nat. reflexivity.
  - lia.
  - intros o Ho Hlt. destruct (Hin o Ho) as [-> | [-> | ->]]; lia.
Qed.

End FarApart.

Lemma beyond_sentinel : Z.of_nat beyond = sentinel.
Proof. unfold beyond. apply Z2Nat.id. unfold sentinel. lia. Qed.

(** C1 fails on the code when the next section starts at the sentinel
    distance or further. In [far_apart beyond] the offset 1 of [Masses] is
    not zero and is below the greatest offset, the next offset is that of
    [Atoms], the line between them holds the row of the section, and
    [masses] returns no row: the least distance is the sentinel, its first
    position is the target's own entry, and the slice runs backwards. *)
Lemma inner_section_body_beyond_sentinel :
  let content := far_apart beyond in
  let w := world_of "system.data" content in
  let top := (Z.of_nat beyond + 3)%Z in
  let table := [[1; 0]; [top; 0]; [0; 0]; [0; 0]; [0; 0]; [0; 0]]%Z in
  files w !! "system.data" = Some content /\
  extractors !! 0%nat = Some masses /\
  fst (parse_lid "system.data" w) = Returns table /\
  offset_at table 0 = Returns 1%Z /\
  1%Z <> 0%Z /\
  greatest_offset table top /\ (1 < top)%Z /\
  next_offset table 1 top /\
  nonblank_rows (lines_between (readlines content) (1 + 1) top)
    = [["1"; "12.011"]] /\
  masses "system.data" w = (Returns (Rows []), w) /\
  masses "system.data" w <>
  (Returns (Rows (nonblank_rows
     (lines_between (readlines content) (1 + 1) top))), w).
Proof.
  cbv zeta.
  pose proof beyond_sentinel as Hsize.
  assert (Hfar : (sentinel <= Z.of_nat beyond + 2)%Z) by lia.
  assert (Hfile : files (world_of "system.data" (far_apart beyond))
                  !! "system.data" = Some (far_apart beyond))
    by (unfold world_of; cbn [files]; apply lookup_singleton_eq).
  destruct (table_far_apart beyond _ Hfile) as (Htable & Hoff & Htop & Hnext).
  pose proof (masses_far_apart beyond Hfar _ Hfile) as Hrun.
  pose proof (body_far_apart beyond) as Hbody.
  split; [exact Hfile|]. split; [reflexivity|].
  split; [exact Htable|]. split; [exact Hoff|].
  split; [discriminate|]. split; [exact Htop|].
  split; [lia|]. split; [exact Hnext|].
  split; [exact Hbody|]. split; [exact Hrun|].
  intros Heq. rewrite Hrun, Hbody in Heq.
  pose proof (f_equal fst Heq) as Hrows. cbn [fst] in Hrows.
  discriminate Hrows.
Qed.

(** ** Further properties of the locator *)

Lemma scan_range kw lines c o :
  scan kw lines c o = o \/
  (c <= scan kw lines c o < c + Z.of_nat (length lines))%Z.
Proof.
  destruct (scan_cases kw lines c o)
    as [[Hscan _] | (i & raw & Hi & _ & Hscan & _)]; [left; assumption|].
  right. apply lookup_lt_Some in Hi. lia.
Qed.

Lemma scan_found kw lines :
  scan kw lines 0 0 <> 0%Z ->
  exists raw, lines !! Z.to_nat (scan kw lines 0 0) = Some raw /\
              first_token_is kw raw = true.
Proof.
  intros Hne.
  destruct (scan_cases kw lines 0 0)
    as [[Hscan _] | (i & raw & Hi & Hraw & Hscan & _)]; [congruence|].
  exists raw. rewrite Hscan, Z.add_0_l, Nat2Z.id. split; assumption.
Qed.

Lemma offsets_lookup lines k o :
  offsets lines !! k = Some o ->
  exists kw, sections !! k = Some kw /\ o = scan kw lines 0 0.
Proof.
  unfold offsets, sections. intros Hk.
  do 6 (destruct k as [|k]; [injection Hk as <-; eauto|]).
  discriminate.
Qed.

Lemma sections_lookup_inj k k' kw :
  sections !! k = Some kw -> sections !! k' = Some kw -> k = k'.
Proof.
  unfold sections. intros Hk Hk'.
  do 6 (destruct k as [|k];
        [injection Hk as <-;
         do 6 (destruct k' as [|k']; [first [reflexivity | discriminate]|]);
         discriminate|]).
  discriminate.
Qed.

Lemma open_readlines_world fname w : snd (open_readlines fname w) = w.
Proof. unfold open_readlines. destruct (files w !! fname); reflexivity. Qed.

Lemma open_readlines_returns fname w lines :
  fst (open_readlines fname w) = Returns lines ->
  exists content, files w !! fname = Some content /\
                  lines = readlines content.
Proof.
  unfold open_readlines. destruct (files w !! fname) as [content|];
    cbn [fst]; intros Hread; [|discriminate].
  injection Hread as <-. eauto.
Qed.

(** X1. When the file opens and reads as text, [parse_lid] returns, changes
    nothing, and its table has six entries [offset, 0]; every offset is 0 or
    the index of a line that was read. *)
Theorem parse_lid_table_shape w fname lines :
  fst (open_readlines fname w) = Returns lines ->
  exists os,
    parse_lid fname w = (Returns (map (fun o => [o; 0%Z]) os), w) /\
    length os = 6%nat /\
    forall o, In o os ->
      o = 0%Z \/ (0 < o < Z.of_nat (length lines))%Z.
Proof.
  intros Hread.
  destruct (open_readlines_returns _ _ _ Hread) as (content & Hfile & ->).
  exists (offsets (readlines content)).
  split; [apply parse_lid_run; assumption|]. split; [reflexivity|].
  intros o Hin. unfold offsets in Hin. apply in_map_iff in Hin.
  destruct Hin as (kw & <- & _).
  destruct (scan_range kw (readlines content) 0 0) as [-> | Hrange];
    [left; reflexivity|].
  destruct (Z.eq_dec (scan kw (readlines content) 0 0) 0%Z); [left|right]; lia.
Qed.

Lemma parse_lid_table_shape_witness :
  exists os,
    parse_lid "system.data" (world_of "system.data" scenario) =
      (Returns (map (fun o => [o; 0%Z]) os),
       world_of "system.data" scenario) /\
    length os = 6%nat /\
    forall o, In o os ->
      o = 0%Z \/ (0 < o < Z.of_nat (length (readlines scenario)))%Z.
Proof.
  apply (parse_lid_table_shape (world_of "system.data" scenario)
           "system.data" (readlines scenario)).
  reflexivity.
Defined.

(** In a file of at most 5000000000000 lines every distance between two
    offsets is below the sentinel, so the extractor of a section that is
    neither absent nor last returns the lines up to the next offset. *)
Lemma inner_section_body_short_file w fname content k f table t top m :
  files w !! fname = Some content ->
  extractors !! k = Some f ->
  fst (parse_lid fname w) = Returns table ->
  offset_at table k = Returns t ->
  t <> 0%Z ->
  greatest_offset table top -> (t < top)%Z ->
  next_offset table t m ->
  (Z.of_nat (length (readlines content)) <= sentinel)%Z ->
  f fname w =
  (Returns (Rows (nonblank_rows
     (lines_between (readlines content) (t + 1) m))), w).
Proof.
  intros Hfile Hf Htable Hoff Ht Htop Hlt Hnext Hshort.
  apply (inner_section_body w fname content k f table t top m);
    try assumption.
  pose proof (parse_lid_table _ _ _ _ Hfile Htable) as ->.
  assert (Hpos : (0 <= t)%Z).
  { apply (offsets_nonneg (readlines content)), table_offset_entries.
    exists k. assumption. }
  destruct Hnext as (Hm & Htm & _).
  apply table_offset_entries in Hm. unfold offsets in Hm.
  apply in_map_iff in Hm. destruct Hm as (kw & <- & _).
  destruct (scan_range kw (readlines content) 0 0) as [Hzero | Hrange]; lia.
Qed.

(** X2. Two sections never share an offset that is not zero: a line is the
    keyword line of one section at most. *)
Theorem shared_offset_is_zero w fname content table k k' o :
  files w !! fname = Some content ->
  fst (parse_lid fname w) = Returns table ->
  offset_at table k = Returns o ->
  offset_at table k' = Returns o ->
  o <> 0%Z ->
  k = k'.
Proof.
  intros Hfile Htable Hk Hk' Ho.
  rewrite (parse_lid_table _ _ _ _ Hfile Htable) in *. clear Htable.
  set (lines := readlines content) in *.
  rewrite offset_at_entries in Hk, Hk'.
  destruct (offsets lines !! k) as [x|] eqn:Ek; [|discriminate].
  destruct (offsets lines !! k') as [x'|] eqn:Ek'; [|discriminate].
  injection Hk as ->. injection Hk' as ->.
  destruct (offsets_lookup _ _ _ Ek) as (kw & Hkw & Hscan).
  destruct (offsets_lookup _ _ _ Ek') as (kw' & Hkw' & Hscan').
  destruct (scan_found kw lines) as (raw & Hraw & Hfirst); [congruence|].
  destruct (scan_found kw' lines) as (raw' & Hraw' & Hfirst'); [congruence|].
  rewrite <- Hscan in Hraw. rewrite <- Hscan' in Hraw'.
  assert (raw' = raw) as -> by congruence.
  unfold first_token_is in Hfirst, Hfirst'.
  apply andb_prop in Hfirst, Hfirst'.
  destruct Hfirst as [_ Hfirst]. destruct Hfirst' as [_ Hfirst'].
  apply String.eqb_eq in Hfirst, Hfirst'.
  assert (kw' = kw) as -> by congruence.
  eapply sections_lookup_inj; eassumption.
Qed.

Lemma shared_offset_is_zero_witness : 1%nat = 1%nat.
Proof.
  apply (shared_offset_is_zero
           (world_of "system.data" scenario) "system.data" scenario
           [[0; 0]; [3; 0]; [0; 0]; [0; 0]; [0; 0]; [0; 0]]%Z 1 1 3%Z).
  - reflexivity.
  - vm_compute. reflexivity.
  - reflexivity.
  - reflexivity.
  - lia.
Defined.

(** X3. A section whose only keyword line is the first line of the file has
    offset 0, and its extractor treats it as absent: it prints its two
    messages and returns no row, whatever follows the keyword line. *)
Theorem section_on_first_line_is_absent w fname content k kw f raw :
  files w !! fname = Some content ->
  sections !! k = Some kw ->
  extractors !! k = Some f ->
  readlines content !! 0%nat = Some raw ->
  first_token_is kw raw = true ->
  (forall j raw', (0 < j)%nat -> readlines content !! j = Some raw' ->
                  first_token_is kw raw' = false) ->
  exists table warning advice,
    parse_lid fname w = (Returns table, w) /\
    offset_at table k = Returns 0%Z /\
    f fname w = (Returns (Rows []), warned warning advice w).
Proof.
  intros Hfile Hkw Hf Hraw Hfirst Hlast.
  destruct (extractors_extract k f Hf) as (warning & advice & ->).
  exists (map entry (offsets (readlines content))), warning, advice.
  assert (Hoff : offset_at (map entry (offsets (readlines content))) k
                 = Returns 0%Z).
  { rewrite offset_at_entries. unfold offsets.
    assert (Hk : map (fun kw => scan kw (readlines content) 0 0) sections !! k
                 = Some (scan kw (readlines content) 0 0)).
    { do 6 (destruct k as [|k]; [injection Hkw as <-; reflexivity|]).
      discriminate. }
    rewrite Hk, (scan_last kw _ 0 0 0%nat raw Hraw Hfirst Hlast).
    reflexivity. }
  split; [apply parse_lid_run; assumption|].
  split; [assumption|].
  eapply extract_absent; try eassumption.
  rewrite (parse_lid_run _ _ _ Hfile). reflexivity.
Qed.

Lemma section_on_first_line_is_absent_witness :
  exists table warning advice,
    parse_lid "system.data" (world_of "system.data" atoms_on_top) =
      (Returns table, world_of "system.data" atoms_on_top) /\
    offset_at table 1 = Returns 0%Z /\
    atoms "system.data" (world_of "system.data" atoms_on_top) =
      (Returns (Rows []),
       warned warning advice (world_of "system.data" atoms_on_top)).
Proof.
  apply (section_on_first_line_is_absent
           (world_of "system.data" atoms_on_top) "system.data" atoms_on_top
           1 "Atoms" atoms (nl "Atoms")).
  - reflexivity.
  - reflexivity.
  - reflexivity.
  - reflexivity.
  - reflexivity.
  - intros j raw' Hj Hlook.
    do 3 (destruct j as [|j];
          [first [lia | vm_compute in Hlook; injection Hlook as <-;
                        reflexivity]|]).
    vm_compute in Hlook. discriminate.
Defined.

(** ** Further properties of the extractors *)

Lemma section_bounds_returns k warning advice os w :
  (k < length os)%nat ->
  exists b w', section_bounds k warning advice (map entry os) w
               = (Returns b, w').
Proof.
  intros Hk. destruct (lookup_lt_is_Some_2 os k Hk) as [t Ht].
  destruct (Z.eq_dec t 0%Z) as [-> | Hne].
  { do 2 eexists. apply section_bounds_absent. assumption. }
  assert (Hnil : os <> []) by (intros ->; discriminate).
  destruct (max_entries os Hnil) as (top & Hmax & _ & _).
  assert (Hoff : offset_at (map entry os) k = Returns t)
    by (rewrite offset_at_entries, Ht; reflexivity).
  destruct (min_least (map (distance t) os))
    as (least & Hmin & Hinleast & _).
  { intros Hmap. apply map_eq_nil in Hmap. contradiction. }
  destruct (index_found least _ Hinleast) as (i & Hidx & Hlook).
  assert (Hi : (i < length os)%nat).
  { apply lookup_lt_Some in Hlook. rewrite length_map in Hlook. assumption. }
  destruct (lookup_lt_is_Some_2 os i Hi) as [m Hm].
  unfold section_bounds, IOMonad.bind, lift, ret.
  rewrite Hoff.
  replace (t =? 0)%Z with false by (symmetry; apply Z.eqb_neq; assumption).
  rewrite Hmax. cbn [getitem entry lookup list_lookup].
  destruct (t =? top)%Z; [eauto|].
  rewrite (distances_of_table _ _ t Hoff), Hmin, Hidx.
  rewrite offset_at_entries, Hm. eauto.
Qed.

Lemma section_bounds_quiet k warning advice os w t :
  os !! k = Some t -> t <> 0%Z ->
  snd (section_bounds k warning advice (map entry os) w) = w.
Proof.
  intros Hk Hne. unfold section_bounds, IOMonad.bind, lift, ret.
  rewrite offset_at_entries, Hk.
  replace (t =? 0)%Z with false by (symmetry; apply Z.eqb_neq; assumption).
  repeat (match goal with
          | |- context [match ?x with _ => _ end] => destruct x
          end; simpl; try reflexivity).
Qed.

(** What an extractor returns on a file that exists: the rows of a slice of
    its lines. *)
Lemma extract_rows k warning advice fname w content :
  files w !! fname = Some content ->
  (k < 6)%nat ->
  exists a b w',
    extract k warning advice fname w =
    (Returns (Rows (nonblank_rows (slice (readlines content) a b))), w').
Proof.
  intros Hfile Hk.
  destruct (section_bounds_returns k warning advice
              (offsets (readlines content)) w Hk) as (b & w' & Hb).
  exists (start b), (stop b), w'. eapply extract_run; eassumption.
Qed.

Lemma extractors_bound k f : extractors !! k = Some f -> (k < 6)%nat.
Proof. intros Hf. apply lookup_lt_Some in Hf. exact Hf. Qed.

Lemma nonblank_rows_sublist l1 l2 :
  sublist l1 l2 -> sublist (nonblank_rows l1) (nonblank_rows l2).
Proof.
  unfold nonblank_rows. induction 1 as [|x l1 l2 _ IH|x l1 l2 _ IH]; simpl.
  - constructor.
  - destruct (negb (length (split x) =? 0)%nat);
      [constructor; assumption | assumption].
  - destruct (negb (length (split x) =? 0)%nat);
      [constructor; assumption | assumption].
Qed.

Lemma slice_sublist {A} (l : list A) a b : sublist (slice l a b) l.
Proof.
  unfold slice. etransitivity; [apply sublist_take | apply sublist_drop].
Qed.

(** X4. When the file opens and reads as text, an extractor returns a list
    of rows: its own steps (the table lookups, [max], [min], [index], the
    slice and the final loop) raise nothing and the result is never [None];
    the files are left as they are. *)
Theorem extractor_returns_rows w fname lines f :
  fst (open_readlines fname w) = Returns lines ->
  In f extractors ->
  exists rows w',
    f fname w = (Returns (Rows rows), w') /\ files w' = files w.
Proof.
  intros Hread Hin.
  destruct (open_readlines_returns _ _ _ Hread) as (content & Hfile & ->).
  destruct (extractors_In f Hin) as [k Hk].
  destruct (extractors_extract k f Hk) as (warning & advice & ->).
  destruct (extract_rows k warning advice fname w content Hfile
              (extractors_bound _ _ Hk)) as (a & b & w' & Hrun).
  do 2 eexists. split; [eassumption|].
  change w' with (snd (Returns (Rows (nonblank_rows
                          (slice (readlines content) a b))), w')).
  rewrite <- Hrun. apply extract_files.
Qed.

Lemma extractor_returns_rows_witness :
  exists rows w',
    impropers "system.data" (world_of "system.data" three_sections)
      = (Returns (Rows rows), w') /\
    files w' = files (world_of "system.data" three_sections).
Proof.
  apply (extractor_returns_rows
           (world_of "system.data" three_sections) "system.data"
           (readlines three_sections) impropers).
  - reflexivity.
  - unfold extractors. simpl. tauto.
Defined.

(** X5. The rows an extractor returns are tokenized lines of the file, in
    file order: they form a sublist of the tokenized non-blank lines of the
    whole file. *)
Theorem extractor_rows_from_file w fname content f rows :
  files w !! fname = Some content ->
  In f extractors ->
  fst (f fname w) = Returns (Rows rows) ->
  sublist rows (nonblank_rows (readlines content)).
Proof.
  intros Hfile Hin Hrows. destruct (extractors_In f Hin) as [k Hk].
  destruct (extractors_extract k f Hk) as (warning & advice & ->).
  destruct (extract_rows k warning advice fname w content Hfile
              (extractors_bound _ _ Hk)) as (a & b & w' & Hrun).
  rewrite Hrun in Hrows. cbn [fst] in Hrows. injection Hrows as <-.
  apply nonblank_rows_sublist, slice_sublist.
Qed.

Lemma extractor_rows_from_file_witness :
  sublist [["1"; "1"; "1"; "0.0"; "0.0"; "0.0"; "0.0"];
           ["2"; "1"; "1"; "0.0"; "1.0"; "0.0"; "0.0"]]
    (nonblank_rows (readlines scenario)).
Proof.
  apply (extractor_rows_from_file
           (world_of "system.data" scenario) "system.data" scenario atoms).
  - reflexivity.
  - unfold extractors. simpl. tauto.
  - vm_compute. reflexivity.
Defined.

(** X6. An extractor prints only for an absent section: when the offset of
    its section is not zero, the world after the call is the world before
    it. *)
Theorem present_section_prints_nothing w fname content k f table t :
  files w !! fname = Some content ->
  extractors !! k = Some f ->
  fst (parse_lid fname w) = Returns table ->
  offset_at table k = Returns t ->
  t <> 0%Z ->
  snd (f fname w) = w.
Proof.
  intros Hfile Hf Htable Hoff Ht.
  destruct (extractors_extract k f Hf) as (warning & advice & ->).
  rewrite (parse_lid_table _ _ _ _ Hfile Htable) in Hoff. clear Htable.
  assert (Hk : offsets (readlines content) !! k = Some t).
  { rewrite offset_at_entries in Hoff.
    destruct (offsets (readlines content) !! k); congruence. }
  pose proof (section_bounds_quiet k warning advice _ w t Hk Ht) as Hquiet.
  unfold extract, parse_lid, IOMonad.bind, open_readlines, lift, ret.
  rewrite Hfile, parse_lid_lines_offsets.
  destruct (section_bounds k warning advice
              (map entry (offsets (readlines content))) w) as [[b|e] w'];
    simpl in Hquiet; subst w'; [|reflexivity].
  rewrite Hfile. destruct (for_each append_body _ _); reflexivity.
Qed.

Lemma present_section_prints_nothing_witness :
  snd (atoms "system.data" (world_of "system.data" scenario))
  = world_of "system.data" scenario.
Proof.
  apply (present_section_prints_nothing
           (world_of "system.data" scenario) "system.data" scenario
           1 atoms [[0; 0]; [3; 0]; [0; 0]; [0; 0]; [0; 0]; [0; 0]]%Z 3%Z).
  - reflexivity.
  - reflexivity.
  - vm_compute. reflexivity.
  - reflexivity.
  - lia.
Defined.

(** X7. When opening or reading the file raises an exception, [lid_header],
    [parse_lid] and the six extractors raise that same exception and print
    nothing: none of them catches it, and an extractor fails in its call of
    [parse_lid], before any warning. *)
Theorem read_failure_propagates w fname e :
  fst (open_readlines fname w) = Raises e ->
  lid_header fname w = (Raises e, w) /\
  parse_lid fname w = (Raises e, w) /\
  forall f, In f extractors -> f fname w = (Raises e, w).
Proof.
  intros Hread.
  assert (Hopen : open_readlines fname w = (Raises e, w)).
  { rewrite (surjective_pairing (open_readlines fname w)).
    rewrite Hread, open_readlines_world. reflexivity. }
  assert (Hparse : parse_lid fname w = (Raises e, w)).
  { unfold parse_lid, IOMonad.bind. rewrite Hopen. reflexivity. }
  split; [|split; [assumption|]].
  - unfold lid_header, IOMonad.bind. rewrite Hopen. reflexivity.
  - intros f Hin. destruct (extractors_In f Hin) as [k Hk].
    destruct (extractors_extract k f Hk) as (warning & advice & ->).
    unfold extract, IOMonad.bind. rewrite Hparse. reflexivity.
Qed.

Lemma read_failure_propagates_witness :
  let w := world_of "system.data" scenario in
  lid_header "other.data" w = (Raises FileNotFoundError, w) /\
  parse_lid "other.data" w = (Raises FileNotFoundError, w) /\
  forall f, In f extractors ->
            f "other.data" w = (Raises FileNotFoundError, w).
Proof.
  apply (read_failure_propagates (world_of "system.data" scenario)
           "other.data" FileNotFoundError).
  reflexivity.
Defined.

(** ** Tokens *)

Lemma nospace_snoc word c :
  nospace word -> isspace c = false -> nospace (word +:+ String c "").
Proof.
  unfold nospace. intros Hword Hc.
  induction word as [|a word IH].
  - constructor; [assumption | constructor].
  - change (String a word +:+ String c "")
      with (String a (word +:+ String c "")).
    cbn [list_ascii_of_string] in *.
    apply Forall_cons in Hword. destruct Hword as [Ha Hword].
    constructor; [assumption | apply IH; assumption].
Qed.

Lemma split_from_tokens s : forall word,
  nospace word ->
  forall t, In t (split_from word s) -> t <> "" /\ nospace t.
Proof.
  induction s as [|c rest IH]; intros word Hword t Hin; simpl in Hin.
  - destruct (String.eqb_spec word ""); [destruct Hin|].
    destruct Hin as [<- | []]. split; assumption.
  - destruct (isspace c) eqn:Hc.
    + destruct (String.eqb_spec word "").
      * apply (IH ""); [constructor | assumption].
      * destruct Hin as [<- | Hin]; [split; assumption|].
        apply (IH ""); [constructor | assumption].
    + apply (IH (word +:+ String c "")); [|assumption].
      apply nospace_snoc; assumption.
Qed.

Lemma nonblank_rows_In row lines :
  In row (nonblank_rows lines) ->
  row <> [] /\ exists raw, In raw lines /\ row = split raw.
Proof.
  unfold nonblank_rows. intros Hin. apply filter_In in Hin.
  destruct Hin as [Hmap Hlen]. apply in_map_iff in Hmap.
  destruct Hmap as (raw & <- & Hraw). split; [|eauto].
  intros Hnil. rewrite Hnil in Hlen. discriminate.
Qed.

(** X8. Every row an extractor returns has at least one token, and every
    token is a string that is not empty and holds no white space. *)
Theorem extractor_rows_are_tokens w fname content f rows :
  files w !! fname = Some content ->
  In f extractors ->
  fst (f fname w) = Returns (Rows rows) ->
  forall row, In row rows ->
    row <> [] /\ forall t, In t row -> t <> "" /\ nospace t.
Proof.
  intros Hfile Hin Hrows row Hrow. destruct (extractors_In f Hin) as [k Hk].
  destruct (extractors_extract k f Hk) as (warning & advice & ->).
  destruct (extract_rows k warning advice fname w content Hfile
              (extractors_bound _ _ Hk)) as (a & b & w' & Hrun).
  rewrite Hrun in Hrows. cbn [fst] in Hrows. injection Hrows as <-.
  apply nonblank_rows_In in Hrow. destruct Hrow as (Hne & raw & _ & ->).
  split; [assumption|]. intros t Ht.
  apply (split_from_tokens raw ""); [constructor | exact Ht].
Qed.

Lemma extractor_rows_are_tokens_witness :
  ["2"; "1"; "1"; "0.0"; "1.0"; "0.0"; "0.0"] <> [] /\
  forall t, In t ["2"; "1"; "1"; "0.0"; "1.0"; "0.0"; "0.0"] ->
            t <> "" /\ nospace t.
Proof.
  apply (extractor_rows_are_tokens
           (world_of "system.data" scenario) "system.data" scenario atoms
           [["1"; "1"; "1"; "0.0"; "0.0"; "0.0"; "0.0"];
            ["2"; "1"; "1"; "0.0"; "1.0"; "0.0"; "0.0"]]).
  - reflexivity.
  - unfold extractors. simpl. tauto.
  - vm_compute. reflexivity.
  - right. left. reflexivity.
Defined.

(** ** Further properties of the header reader *)

Lemma setitem_length {A} (l l' : list A) i x :
  setitem l i x = Returns l' -> length l' = length l.
Proof.
  unfold setitem. destruct (i <? length l)%nat; [|discriminate].
  intros H. injection H as <-. apply length_insert.
Qed.

Lemma lid_header_body_ok raw h r :
  header_ok h ->
  lid_header_body raw h = Returns r ->
  match r with Next h' | Break h' => header_ok h' end.
Proof.
  intros (Hm & Ht & Hb). unfold lid_header_body. cbv zeta.
  repeat match goal with
         | |- context [if (?a && ?b) then _ else _] => destruct (a && b)
         | |- context [Py.bind (setitem ?l ?i ?x) _] =>
             let E := fresh "E" in
             destruct (setitem l i x) eqn:E;
             [apply setitem_length in E|]; cbn [Py.bind]
         | |- context [Py.bind (index ?a ?b) _] =>
             destruct (index a b); cbn [Py.bind]
         end;
    intros Hr; try discriminate Hr; injection Hr as <-;
    repeat split; cbn [molecular_data types_data boundary_data];
    congruence.
Qed.

Lemma lid_header_loop_ok lines : forall h h',
  header_ok h ->
  for_each lid_header_body lines h = Returns h' ->
  header_ok h'.
Proof.
  induction lines as [|raw rest IH]; intros h h' Hok Hrun; simpl in Hrun.
  - injection Hrun as <-. assumption.
  - destruct (lid_header_body raw h) as [r|e] eqn:Hbody; [|discriminate].
    pose proof (lid_header_body_ok raw h r Hok Hbody) as Hr.
    destruct r as [h1|h1]; simpl in Hrun.
    + eapply IH; eassumption.
    + injection Hrun as <-. assumption.
Qed.

(** X9. When [lid_header] returns, its three lists have kept their sizes:
    five counts, five type counts and six box bounds. *)
Theorem lid_header_sizes w fname content md td bd :
  files w !! fname = Some content ->
  fst (lid_header fname w) = Returns (md, td, bd) ->
  length md = 5%nat /\ length td = 5%nat /\ length bd = 6%nat.
Proof.
  intros Hfile Hrun.
  unfold lid_header, IOMonad.bind, open_readlines, lift in Hrun.
  rewrite Hfile in Hrun. cbn [fst] in Hrun. unfold lid_header_lines in Hrun.
  destruct (for_each lid_header_body (readlines content) header_init)
    as [h|e] eqn:Hloop; [|discriminate].
  cbn [Py.bind] in Hrun. injection Hrun as <- <- <-.
  apply (lid_header_loop_ok (readlines content) header_init h);
    [|assumption].
  repeat split.
Qed.

Lemma lid_header_sizes_witness :
  length [Str "2"; Int 0; Int 0; Int 0; Int 0] = 5%nat /\
  length [Str "1"; Int 0; Int 0; Int 0; Int 0] = 5%nat /\
  length [Str "0.0"; Str "10.0"; Int 0; Int 0; Int 0; Int 0] = 6%nat.
Proof.
  apply (lid_header_sizes
           (world_of "system.data" scenario) "system.data" scenario).
  - reflexivity.
  - vm_compute. reflexivity.
Defined.

Lemma lid_header_body_overflow raw h :
  header_ok h -> header_overflow raw = true ->
  lid_header_body raw h = Raises IndexError.
Proof.
  intros (Hm & Ht & Hb). unfold header_overflow, lid_header_body. cbv zeta.
  destruct ((2 <=? length (split raw))%nat
            && contains (tok (split raw) 1) molecular_prop); [discriminate|].
  destruct ((3 <=? length (split raw))%nat
            && contains (tok (split raw) 1) types_prop); [discriminate|].
  cbn [negb andb]. intros Hzhi. apply andb_prop in Hzhi.
  destruct Hzhi as [Hlen Hzhi]. apply String.eqb_eq in Hzhi.
  rewrite Hlen, Hzhi. simpl.
  rewrite setitem_in_range by lia. simpl.
  unfold setitem. rewrite length_insert, Hb. reflexivity.
Qed.

Lemma lid_header_body_break raw h h' :
  lid_header_body raw h = Returns (Break h') -> header_stop raw = true.
Proof.
  unfold header_stop, lid_header_body. cbv zeta.
  repeat match goal with
         | |- context [if (?a && ?b) then _ else _] => destruct (a && b)
         | |- context [Py.bind (setitem ?l ?i ?x) _] =>
             destruct (setitem l i x); cbn [Py.bind]
         | |- context [Py.bind (index ?a ?b) _] =>
             destruct (index a b); cbn [Py.bind]
         end;
    intros Hr; first [discriminate Hr | reflexivity].
Qed.

Lemma lid_header_loop_overflow pre raw post :
  (forall r, In r pre -> header_stop r = false /\ header_overflow r = false) ->
  header_overflow raw = true ->
  forall h, header_ok h ->
    for_each lid_header_body (pre ++ raw :: post) h = Raises IndexError.
Proof.
  intros Hpre Hraw. induction pre as [|r pre IH]; intros h Hok; simpl.
  - rewrite lid_header_body_overflow by assumption. reflexivity.
  - destruct (Hpre r (or_introl eq_refl)) as [Hstop Hfine].
    destruct (lid_header_body_returns r h Hok Hfine)
      as (h' & Hok' & [Hbody | Hbody]).
    + rewrite Hbody. simpl. apply IH; [|assumption].
      intros r' Hin. apply Hpre. right. assumption.
    + apply lid_header_body_break in Hbody. congruence.
Qed.

Lemma lid_header_loop_raises lines : forall h e,
  header_ok h ->
  for_each lid_header_body lines h = Raises e ->
  e = IndexError /\
  exists raw, In raw lines /\ header_overflow raw = true.
Proof.
  induction lines as [|raw rest IH]; intros h e Hok Hrun; simpl in Hrun;
    [discriminate|].
  destruct (header_overflow raw) eqn:Hover.
  - rewrite lid_header_body_overflow in Hrun by assumption.
    simpl in Hrun. injection Hrun as <-.
    split; [reflexivity|]. exists raw. split; [left; reflexivity | assumption].
  - destruct (lid_header_body_returns raw h Hok Hover)
      as (h' & Hok' & [Hbody | Hbody]); rewrite Hbody in Hrun;
      simpl in Hrun; [|discriminate].
    destruct (IH h' e Hok' Hrun) as (He & raw' & Hin & Hraw').
    split; [assumption|]. exists raw'. split; [right|]; assumption.
Qed.

(** X10. [lid_header] raises [IndexError] as soon as it reads, before any
    line that stops it, a line that reaches the boundary branch with ["zhi"]
    as third token; nothing is printed. *)
Theorem lid_header_raises_at_overflow w fname content pre raw post :
  files w !! fname = Some content ->
  readlines content = pre ++ raw :: post ->
  (forall r, In r pre -> header_stop r = false /\ header_overflow r = false) ->
  header_overflow raw = true ->
  lid_header fname w = (Raises IndexError, w).
Proof.
  intros Hfile Hlines Hpre Hraw.
  unfold lid_header, IOMonad.bind, open_readlines, lift, lid_header_lines.
  rewrite Hfile, Hlines.
  rewrite (lid_header_loop_overflow pre raw post Hpre Hraw); [reflexivity|].
  repeat split.
Qed.

Lemma lid_header_raises_at_overflow_witness :
  lid_header "system.data" (world_of "system.data" swapped_labels) =
  (Raises IndexError, world_of "system.data" swapped_labels).
Proof.
  apply (lid_header_raises_at_overflow
           (world_of "system.data" swapped_labels) "system.data"
           swapped_labels [nl "2 atoms"] (nl "0.0 10.0 zhi zlo")
           [nl "Atoms"]).
  - reflexivity.
  - reflexivity.
  - intros r [<- | []]. split; reflexivity.
  - reflexivity.
Defined.

(** X11. When the file opens and reads as text, the only exception
    [lid_header] can raise is [IndexError], and only when one of the lines
    that were read reaches the boundary branch with ["zhi"] as third
    token. *)
Theorem lid_header_raises_only_at_overflow w fname lines e :
  fst (open_readlines fname w) = Returns lines ->
  fst (lid_header fname w) = Raises e ->
  e = IndexError /\
  exists raw, In raw lines /\ header_overflow raw = true.
Proof.
  intros Hread Hrun.
  destruct (open_readlines_returns _ _ _ Hread) as (content & Hfile & ->).
  unfold lid_header, IOMonad.bind, open_readlines, lift in Hrun.
  rewrite Hfile in Hrun. cbn [fst] in Hrun. unfold lid_header_lines in Hrun.
  destruct (for_each lid_header_body (readlines content) header_init)
    as [h|e'] eqn:Hloop; [discriminate|].
  cbn [Py.bind] in Hrun. injection Hrun as ->.
  apply (lid_header_loop_raises (readlines content) header_init e);
    [|assumption].
  repeat split.
Qed.

Lemma lid_header_raises_only_at_overflow_witness :
  IndexError = IndexError /\
  exists raw, In raw (readlines swapped_labels) /\ header_overflow raw = true.
Proof.
  apply (lid_header_raises_only_at_overflow
           (world_of "system.data" swapped_labels) "system.data"
           (readlines swapped_labels) IndexError).
  - reflexivity.
  - vm_compute. reflexivity.
Defined.

Lemma contains_of_In x l : In x l -> contains x l = true.
Proof.
  unfold contains. intros Hin. apply existsb_exists.
  exists x. split; [assumption | apply String.eqb_refl].
Qed.

Lemma count_scan_cases label lines : forall v,
  (count_scan label lines v = v /\
   forall raw, In raw lines -> count_line label raw = false)
  \/
  (exists i raw,
     lines !! i = Some raw /\ count_line label raw = true /\
     count_scan label lines v = Str (tok (split raw) 0) /\
     forall j raw', (i < j)%nat -> lines !! j = Some raw' ->
                    count_line label raw' = false).
Proof.
  induction lines as [|raw rest IH]; intros v; simpl.
  - left. split; [reflexivity | intros ? []].
  - destruct (IH (if count_line label raw then Str (tok (split raw) 0)
                  else v))
      as [[Hscan Hnone] | (i & raw' & Hi & Hkw & Hscan & Hlast)].
    + destruct (count_line label raw) eqn:Hraw.
      * right. exists 0%nat, raw. repeat split; try assumption.
        intros [|j] raw' Hj Hlook; [lia|].
        simpl in Hlook. apply Hnone.
        apply list_elem_of_In. eapply list_elem_of_lookup_2; eassumption.
      * left. split; [assumption|].
        intros raw' [<- | Hin]; [assumption | auto].
    + right. exists (S i), raw'. repeat split; try assumption.
      intros [|j] raw'' Hj Hlook; [lia|].
      simpl in Hlook. apply (Hlast j); [lia | assumption].
Qed.

Lemma lid_header_body_count raw h r i label :
  header_ok h ->
  header_stop raw = false ->
  molecular_prop !! i = Some label ->
  lid_header_body raw h = Returns r ->
  exists h', r = Next h' /\
    molecular_data h' !! i =
    if count_line label raw then Some (Str (tok (split raw) 0))
    else molecular_data h !! i.
Proof.
  intros (Hm & Ht & Hb) Hstop Hlabel.
  unfold header_stop in Hstop. unfold lid_header_body, count_line.
  cbv zeta in *. revert Hstop.
  destruct ((2 <=? length (split raw))%nat
            && contains (tok (split raw) 1) molecular_prop) eqn:C1.
  - intros _. apply andb_prop in C1. destruct C1 as [Hlen C1].
    rewrite Hlen. cbn [andb].
    apply contains_In in C1. unfold molecular_prop in C1 at 1.
    unfold molecular_prop in Hlabel. simpl in C1.
    repeat (destruct C1 as [E | C1];
            [rewrite <- E; clear E;
             cbn [index index_from decide]; simpl;
             rewrite setitem_in_range by lia; simpl;
             intros Hr; injection Hr as <-;
             eexists; split; [reflexivity|];
             cbn [molecular_data];
             do 5 (destruct i as [|i];
                   [injection Hlabel as <-; simpl;
                    first [ apply list_lookup_insert_eq; lia
                          | apply list_lookup_insert_ne; lia ]|]);
             discriminate Hlabel
            |]).
    destruct C1.
  - assert (Hcount : (2 <=? length (split raw))%nat
                     && String.eqb (tok (split raw) 1) label = false).
    { destruct (2 <=? length (split raw))%nat; [|reflexivity].
      cbn [andb] in C1 |- *.
      destruct (String.eqb_spec (tok (split raw) 1) label) as [Heq|];
        [|reflexivity].
      rewrite contains_of_In in C1; [discriminate|].
      rewrite Heq. apply list_elem_of_In.
      eapply list_elem_of_lookup_2; eassumption. }
    rewrite Hcount. cbn [negb andb].
    repeat match goal with
           | |- context [if (?a && ?b) then _ else _] => destruct (a && b)
           | |- context [Py.bind (setitem ?l ?i ?x) _] =>
               destruct (setitem l i x); cbn [Py.bind]
           | |- context [Py.bind (index ?a ?b) _] =>
               destruct (index a b); cbn [Py.bind]
           end;
      cbn [negb andb]; intros Hstop Hr;
      try discriminate Hstop; try discriminate Hr;
      injection Hr as <-; eexists; split; reflexivity.
Qed.

Lemma lid_header_loop_count i label pre : forall h h' v,
  header_ok h ->
  (forall r, In r pre -> header_stop r = false) ->
  molecular_prop !! i = Some label ->
  molecular_data h !! i = Some v ->
  for_each lid_header_body pre h = Returns h' ->
  molecular_data h' !! i = Some (count_scan label pre v).
Proof.
  induction pre as [|raw rest IH]; intros h h' v Hok Hpre Hlabel Hv Hrun;
    simpl in Hrun |- *.
  - injection Hrun as <-. assumption.
  - destruct (lid_header_body raw h) as [r|e] eqn:Hbody; [|discriminate].
    pose proof (lid_header_body_ok raw h r Hok Hbody) as Hok'.
    destruct (lid_header_body_count raw h r i label Hok
                (Hpre raw (or_introl eq_refl)) Hlabel Hbody)
      as (h1 & -> & Hmd).
    simpl in Hrun. apply (IH h1 h'); try assumption.
    + intros r Hin. apply Hpre. right. assumption.
    + rewrite Hmd. destruct (count_line label raw); [reflexivity | assumption].
Qed.

(** X12. A count of the header is the first token of the last line, among
    the lines read before the line that stops the scan, whose second token
    is its label ([atoms], [bonds], ...); it is the integer 0 when there is
    no such line. *)
Theorem header_count_is_last w fname content pre tail i label md td bd :
  files w !! fname = Some content ->
  readlines content = pre ++ tail ->
  (forall r, In r pre -> header_stop r = false) ->
  (tail = [] \/ exists r post, tail = r :: post /\ header_stop r = true) ->
  molecular_prop !! i = Some label ->
  fst (lid_header fname w) = Returns (md, td, bd) ->
  ((forall r, In r pre -> count_line label r = false) ->
   md !! i = Some (Int 0)) /\
  (forall j r,
     pre !! j = Some r -> count_line label r = true ->
     (forall j' r', (j < j')%nat -> pre !! j' = Some r' ->
                    count_line label r' = false) ->
     md !! i = Some (Str (tok (split r) 0))).
Proof.
  intros Hfile Hlines Hpre Htail Hlabel Hrun.
  unfold lid_header, IOMonad.bind, open_readlines, lift in Hrun.
  rewrite Hfile, Hlines in Hrun. cbn [fst] in Hrun.
  unfold lid_header_lines in Hrun.
  assert (Hloop : for_each lid_header_body (pre ++ tail) header_init
                  = for_each lid_header_body pre header_init).
  { destruct Htail as [-> | (r & post & -> & Hstop)].
    - rewrite app_nil_r. reflexivity.
    - apply for_each_break. intros h. apply lid_header_body_stop.
      assumption. }
  rewrite Hloop in Hrun.
  destruct (for_each lid_header_body pre header_init) as [h|e] eqn:Hpreloop;
    [|discriminate].
  cbn [Py.bind] in Hrun. injection Hrun as <- _ _.
  assert (Hinit : molecular_data header_init !! i = Some (Int 0)).
  { unfold molecular_prop in Hlabel.
    do 5 (destruct i as [|i]; [reflexivity|]). discriminate. }
  assert (Hok : header_ok header_init) by (repeat split).
  rewrite (lid_header_loop_count i label pre header_init h (Int 0)
             Hok Hpre Hlabel Hinit Hpreloop).
  destruct (count_scan_cases label pre (Int 0))
    as [[Hscan Hnone] | (l & raw & Hl & Hraw & Hscan & Hlast)].
  - split; [intros _; rewrite Hscan; reflexivity|].
    intros j r Hj Hr _.
    apply list_elem_of_lookup_2, list_elem_of_In, Hnone in Hj. congruence.
  - split.
    + intros Hnone.
      apply list_elem_of_lookup_2, list_elem_of_In, Hnone in Hl. congruence.
    + intros j r Hj Hr Hlastj. rewrite Hscan.
      destruct (Nat.lt_trichotomy j l) as [Hlt | [-> | Hgt]].
      * rewrite (Hlastj l raw Hlt Hl) in Hraw. discriminate.
      * congruence.
      * rewrite (Hlast j r Hgt Hj) in Hr. discriminate.
Qed.

Lemma header_count_is_last_witness :
  ((forall r, In r [nl "2 atoms"; nl "1 bonds"; nl "7 atoms"] ->
              count_line "atoms" r = false) ->
   [Str "7"; Str "1"; Int 0; Int 0; Int 0] !! 0%nat = Some (Int 0)) /\
  (forall j r,
     [nl "2 atoms"; nl "1 bonds"; nl "7 atoms"] !! j = Some r ->
     count_line "atoms" r = true ->
     (forall j' r', (j < j')%nat ->
                    [nl "2 atoms"; nl "1 bonds"; nl "7 atoms"] !! j' = Some r' ->
                    count_line "atoms" r' = false) ->
     [Str "7"; Str "1"; Int 0; Int 0; Int 0] !! 0%nat
     = Some (Str (tok (split r) 0))).
Proof.
  apply (header_count_is_last
           (world_of "system.data" counted_twice) "system.data" counted_twice
           [nl "2 atoms"; nl "1 bonds"; nl "7 atoms"]
           [nl "Atoms"; nl "9 atoms"] 0 "atoms"
           [Str "7"; Str "1"; Int 0; Int 0; Int 0]
           [Int 0; Int 0; Int 0; Int 0; Int 0]
           [Int 0; Int 0; Int 0; Int 0; Int 0; Int 0]).
  - reflexivity.
  - reflexivity.
  - intros r Hin. simpl in Hin.
    repeat (destruct Hin as [<- | Hin]; [reflexivity|]). destruct Hin.
  - right. exists (nl "Atoms"), [nl "9 atoms"]. split; reflexivity.
  - reflexivity.
  - vm_compute. reflexivity.
Defined.

Lemma type_scan_cases label lines : forall v,
  (type_scan label lines v = v /\
   forall raw, In raw lines -> type_line label raw = false)
  \/
  (exists i raw,
     lines !! i = Some raw /\ type_line label raw = true /\
     type_scan label lines v = Str (tok (split raw) 0) /\
     forall j raw', (i < j)%nat -> lines !! j = Some raw' ->
                    type_line label raw' = false).
Proof.
  induction lines as [|raw rest IH]; intros v; simpl.
  - left. split; [reflexivity | intros ? []].
  - destruct (IH (if type_line label raw then Str (tok (split raw) 0)
                  else v))
      as [[Hscan Hnone] | (i & raw' & Hi & Hkw & Hscan & Hlast)].
    + destruct (type_line label raw) eqn:Hraw.
      * right. exists 0%nat, raw. repeat split; try assumption.
        intros [|j] raw' Hj Hlook; [lia|].
        simpl in Hlook. apply Hnone.
        apply list_elem_of_In. eapply list_elem_of_lookup_2; eassumption.
      * left. split; [assumption|].
        intros raw' [<- | Hin]; [assumption | auto].
    + right. exists (S i), raw'. repeat split; try assumption.
      intros [|j] raw'' Hj Hlook; [lia|].
      simpl in Hlook. apply (Hlast j); [lia | assumption].
Qed.

Lemma lid_header_body_type raw h r i label :
  header_ok h ->
  header_stop raw = false ->
  types_prop !! i = Some label ->
  lid_header_body raw h = Returns r ->
  exists h', r = Next h' /\
    types_data h' !! i =
    if type_line label raw then Some (Str (tok (split raw) 0))
    else types_data h !! i.
Proof.
  intros (Hm & Ht & Hb) Hstop Hlabel.
  unfold header_stop in Hstop. unfold lid_header_body, type_line.
  cbv zeta in *. revert Hstop.
  destruct ((2 <=? length (split raw))%nat
            && contains (tok (split raw) 1) molecular_prop) eqn:C1.
  { intros _.
    assert (Htype : (3 <=? length (split raw))%nat
                    && String.eqb (tok (split raw) 1) label = false).
    { apply andb_prop in C1. destruct C1 as [_ C1].
      apply contains_In in C1. unfold molecular_prop in C1. simpl in C1.
      unfold types_prop in Hlabel.
      destruct (3 <=? length (split raw))%nat; [|reflexivity].
      cbn [andb]. apply String.eqb_neq. intros Heq.
      rewrite Heq in C1.
      do 5 (destruct i as [|i];
            [injection Hlabel as <-;
             repeat (destruct C1 as [C1 | C1]; [discriminate C1|]);
             destruct C1|]).
      discriminate Hlabel. }
    rewrite Htype.
    repeat match goal with
           | |- context [Py.bind (setitem ?l ?i ?x) _] =>
               destruct (setitem l i x); cbn [Py.bind]
           | |- context [Py.bind (index ?a ?b) _] =>
               destruct (index a b); cbn [Py.bind]
           end;
      intros Hr; try discriminate Hr;
      injection Hr as <-; eexists; split; reflexivity. }
  destruct ((3 <=? length (split raw))%nat
            && contains (tok (split raw) 1) types_prop) eqn:C2.
  - intros _. apply andb_prop in C2. destruct C2 as [Hlen C2].
    rewrite Hlen. cbn [andb].
    apply contains_In in C2. unfold types_prop in C2 at 1.
    unfold types_prop in Hlabel. simpl in C2.
    repeat (destruct C2 as [E | C2];
            [rewrite <- E; clear E;
             cbn [index index_from decide]; simpl;
             rewrite setitem_in_range by lia; simpl;
             intros Hr; injection Hr as <-;
             eexists; split; [reflexivity|];
             cbn [types_data];
             do 5 (destruct i as [|i];
                   [injection Hlabel as <-; simpl;
                    first [ apply list_lookup_insert_eq; lia
                          | apply list_lookup_insert_ne; lia ]|]);
             discriminate Hlabel
            |]).
    destruct C2.
  - assert (Htype : (3 <=? length (split raw))%nat
                    && String.eqb (tok (split raw) 1) label = false).
    { destruct (3 <=? length (split raw))%nat; [|reflexivity].
      cbn [andb] in C2 |- *.
      destruct (String.eqb_spec (tok (split raw) 1) label) as [Heq|];
        [|reflexivity].
      rewrite contains_of_In in C2; [discriminate|].
      rewrite Heq. apply list_elem_of_In.
      eapply list_elem_of_lookup_2; eassumption. }
    rewrite Htype. cbn [negb andb].
    repeat match goal with
           | |- context [if (?a && ?b) then _ else _] => destruct (a && b)
           | |- context [Py.bind (setitem ?l ?i ?x) _] =>
               destruct (setitem l i x); cbn [Py.bind]
           | |- context [Py.bind (index ?a ?b) _] =>
               destruct (index a b); cbn [Py.bind]
           end;
      cbn [negb andb]; intros Hstop Hr;
      try discriminate Hstop; try discriminate Hr;
      injection Hr as <-; eexists; split; reflexivity.
Qed.

Lemma lid_header_loop_type i label pre : forall h h' v,
  header_ok h ->
  (forall r, In r pre -> header_stop r = false) ->
  types_prop !! i = Some label ->
  types_data h !! i = Some v ->
  for_each lid_header_body pre h = Returns h' ->
  types_data h' !! i = Some (type_scan label pre v).
Proof.
  induction pre as [|raw rest IH]; intros h h' v Hok Hpre Hlabel Hv Hrun;
    simpl in Hrun |- *.
  - injection Hrun as <-. assumption.
  - destruct (lid_header_body raw h) as [r|e] eqn:Hbody; [|discriminate].
    pose proof (lid_header_body_ok raw h r Hok Hbody) as Hok'.
    destruct (lid_header_body_type raw h r i label Hok
                (Hpre raw (or_introl eq_refl)) Hlabel Hbody)
      as (h1 & -> & Htd).
    simpl in Hrun. apply (IH h1 h'); try assumption.
    + intros r Hin. apply Hpre. right. assumption.
    + rewrite Htd. destruct (type_line label raw); [reflexivity | assumption].
Qed.

(** X13. A type count of the header is the first token of the last line,
    among the lines read before the line that stops the scan, that has at
    least three tokens and its label ([atom], [bond], ...) as second token,
    whatever its third token is; it is the integer 0 when there is no such
    line. *)
Theorem header_type_count_is_last w fname content pre tail i label md td bd :
  files w !! fname = Some content ->
  readlines content = pre ++ tail ->
  (forall r, In r pre -> header_stop r = false) ->
  (tail = [] \/ exists r post, tail = r :: post /\ header_stop r = true) ->
  types_prop !! i = Some label ->
  fst (lid_header fname w) = Returns (md, td, bd) ->
  ((forall r, In r pre -> type_line label r = false) ->
   td !! i = Some (Int 0)) /\
  (forall j r,
     pre !! j = Some r -> type_line label r = true ->
     (forall j' r', (j < j')%nat -> pre !! j' = Some r' ->
                    type_line label r' = false) ->
     td !! i = Some (Str (tok (split r) 0))).
Proof.
  intros Hfile Hlines Hpre Htail Hlabel Hrun.
  unfold lid_header, IOMonad.bind, open_readlines, lift in Hrun.
  rewrite Hfile, Hlines in Hrun. cbn [fst] in Hrun.
  unfold lid_header_lines in Hrun.
  assert (Hloop : for_each lid_header_body (pre ++ tail) header_init
                  = for_each lid_header_body pre header_init).
  { destruct Htail as [-> | (r & post & -> & Hstop)].
    - rewrite app_nil_r. reflexivity.
    - apply for_each_break. intros h. apply lid_header_body_stop.
      assumption. }
  rewrite Hloop in Hrun.
  destruct (for_each lid_header_body pre header_init) as [h|e] eqn:Hpreloop;
    [|discriminate].
  cbn [Py.bind] in Hrun. injection Hrun as _ <- _.
  assert (Hinit : types_data header_init !! i = Some (Int 0)).
  { unfold types_prop in Hlabel.
    do 5 (destruct i as [|i]; [reflexivity|]). discriminate. }
  assert (Hok : header_ok header_init) by (repeat split).
  rewrite (lid_header_loop_type i label pre header_init h (Int 0)
             Hok Hpre Hlabel Hinit Hpreloop).
  destruct (type_scan_cases label pre (Int 0))
    as [[Hscan Hnone] | (l & raw & Hl & Hraw & Hscan & Hlast)].
  - split; [intros _; rewrite Hscan; reflexivity|].
    intros j r Hj Hr _.
    apply list_elem_of_lookup_2, list_elem_of_In, Hnone in Hj. congruence.
  - split.
    + intros Hnone.
      apply list_elem_of_lookup_2, list_elem_of_In, Hnone in Hl. congruence.
    + intros j r Hj Hr Hlastj. rewrite Hscan.
      destruct (Nat.lt_trichotomy j l) as [Hlt | [-> | Hgt]].
      * rewrite (Hlastj l raw Hlt Hl) in Hraw. discriminate.
      * congruence.
      * rewrite (Hlast j r Hgt Hj) in Hr. discriminate.
Qed.

Lemma header_type_count_is_last_witness :
  ((forall r, In r [nl "3 atom types"; nl "4 atom"; nl "5 atom kinds"] ->
              type_line "atom" r = false) ->
   [Str "5"; Int 0; Int 0; Int 0; Int 0] !! 0%nat = Some (Int 0)) /\
  (forall j r,
     [nl "3 atom types"; nl "4 atom"; nl "5 atom kinds"] !! j = Some r ->
     type_line "atom" r = true ->
     (forall j' r', (j < j')%nat ->
        [nl "3 atom types"; nl "4 atom"; nl "5 atom kinds"] !! j' = Some r' ->
        type_line "atom" r' = false) ->
     [Str "5"; Int 0; Int 0; Int 0; Int 0] !! 0%nat
     = Some (Str (tok (split r) 0))).
Proof.
  apply (header_type_count_is_last
           (world_of "system.data" typed_twice) "system.data" typed_twice
           [nl "3 atom types"; nl "4 atom"; nl "5 atom kinds"]
           [nl "Masses"] 0 "atom"
           [Int 0; Int 0; Int 0; Int 0; Int 0]
           [Str "5"; Int 0; Int 0; Int 0; Int 0]
           [Int 0; Int 0; Int 0; Int 0; Int 0; Int 0]).
  - reflexivity.
  - reflexivity.
  - intros r Hin. simpl in Hin.
    repeat (destruct Hin as [<- | Hin]; [reflexivity|]). destruct Hin.
  - right. exists (nl "Masses"), []. split; reflexivity.
  - reflexivity.
  - vm_compute. reflexivity.
Defined.

Lemma section_bounds_start k warning advice os w t b w' :
  os !! k = Some t -> t <> 0%Z ->
  section_bounds k warning advice (map entry os) w = (Returns b, w') ->
  start b = (t + 1)%Z.
Proof.
  intros Hk Hne.
  assert (Hoff : offset_at (map entry os) k = Returns t)
    by (rewrite offset_at_entries, Hk; reflexivity).
  unfold section_bounds, IOMonad.bind, lift, ret. rewrite !Hoff.
  replace (t =? 0)%Z with false by (symmetry; apply Z.eqb_neq; assumption).
  repeat (match goal with
          | |- context [match ?x with _ => _ end] => destruct x
          end; cbn [fst snd]);
    intros Hb; try discriminate Hb; injection Hb as <- _; reflexivity.
Qed.

Lemma slice_after {A} (l : list A) a b :
  (0 <= a)%Z -> sublist (slice l a b) (drop (Z.to_nat a) l).
Proof.
  intros Ha. unfold slice, clamp.
  replace (a <? 0)%Z with false by (symmetry; apply Z.ltb_ge; lia).
  destruct (Z.le_gt_cases (Z.of_nat (length l)) a) as [Hout | Hin].
  - rewrite Z.min_r by lia. rewrite Nat2Z.id.
    rewrite (drop_ge l (length l)) by lia. rewrite take_nil.
    apply sublist_nil_l.
  - rewrite Z.min_l by lia. apply sublist_take.
Qed.

(** X14. The rows returned for a section that is present (offset [t] not
    zero) all come from lines after its keyword line: they form a sublist of
    the tokenized non-blank lines of index greater than [t]. *)
Theorem present_section_rows_follow_keyword
  w fname content k f table t rows :
  files w !! fname = Some content ->
  extractors !! k = Some f ->
  fst (parse_lid fname w) = Returns table ->
  offset_at table k = Returns t ->
  t <> 0%Z ->
  fst (f fname w) = Returns (Rows rows) ->
  sublist rows
    (nonblank_rows (drop (Z.to_nat (t + 1)) (readlines content))).
Proof.
  intros Hfile Hf Htable Hoff Ht Hrows.
  destruct (extractors_extract k f Hf) as (warning & advice & ->).
  rewrite (parse_lid_table _ _ _ _ Hfile Htable) in Hoff. clear Htable.
  assert (Hk : offsets (readlines content) !! k = Some t).
  { rewrite offset_at_entries in Hoff.
    destruct (offsets (readlines content) !! k); congruence. }
  assert (Hpos : (0 <= t)%Z).
  { apply (offsets_nonneg (readlines content)), list_elem_of_In.
    eapply list_elem_of_lookup_2; eassumption. }
  destruct (section_bounds_returns k warning advice
              (offsets (readlines content)) w (extractors_bound _ _ Hf))
    as (b & w' & Hb).
  rewrite (extract_run k warning advice fname w content b w' Hfile Hb)
    in Hrows.
  cbn [fst] in Hrows. injection Hrows as <-.
  rewrite (section_bounds_start _ _ _ _ _ _ _ _ Hk Ht Hb).
  apply nonblank_rows_sublist, slice_after. lia.
Qed.

Lemma present_section_rows_follow_keyword_witness :
  sublist [["1"; "1"; "1"; "0.0"; "0.0"; "0.0"; "0.0"];
           ["2"; "1"; "1"; "0.0"; "1.0"; "0.0"; "0.0"]]
    (nonblank_rows (drop (Z.to_nat (3 + 1)) (readlines scenario))).
Proof.
  apply (present_section_rows_follow_keyword
           (world_of "system.data" scenario) "system.data" scenario
           1 atoms [[0; 0]; [3; 0]; [0; 0]; [0; 0]; [0; 0]; [0; 0]]%Z 3%Z).
  - reflexivity.
  - reflexivity.
  - vm_compute. reflexivity.
  - reflexivity.
  - lia.
  - vm_compute. reflexivity.
Defined.

Lemma lid_header_body_keeps_bounds raw h r :
  boundary_line raw = false ->
  lid_header_body raw h = Returns r ->
  match r with Next h' | Break h' => boundary_data h' = boundary_data h end.
Proof.
  unfold boundary_line, lid_header_body. cbv zeta.
  repeat match goal with
         | |- context [if (?a && ?b) then _ else _] => destruct (a && b)
         | |- context [Py.bind (setitem ?l ?i ?x) _] =>
             destruct (setitem l i x); cbn [Py.bind]
         | |- context [Py.bind (index ?a ?b) _] =>
             destruct (index a b); cbn [Py.bind]
         end;
    cbn [negb andb]; intros Hline Hr;
    try discriminate Hline; try discriminate Hr;
    injection Hr as <-; reflexivity.
Qed.

Lemma lid_header_body_sets_bounds raw h r p :
  header_ok h ->
  boundary_line raw = true ->
  boundary_prop !! p = Some (tok (split raw) 2) ->
  lid_header_body raw h = Returns r ->
  exists h', r = Next h' /\
    boundary_data h' !! p = Some (Str (tok (split raw) 0)) /\
    boundary_data h' !! S p = Some (Str (tok (split raw) 1)).
Proof.
  intros (Hm & Ht & Hb). unfold boundary_line, lid_header_body. cbv zeta.
  destruct ((2 <=? length (split raw))%nat
            && contains (tok (split raw) 1) molecular_prop); [discriminate|].
  destruct ((3 <=? length (split raw))%nat
            && contains (tok (split raw) 1) types_prop); [discriminate|].
  cbn [negb andb]. intros Hline. rewrite Hline.
  apply andb_prop in Hline. destruct Hline as [_ Hin].
  apply contains_In in Hin. unfold boundary_prop in Hin at 1.
  unfold boundary_prop at 1. simpl in Hin. intros Hp.
  repeat (destruct Hin as [E | Hin];
          [rewrite <- E in *; clear E;
           do 6 (destruct p as [|p];
                 [first
                    [ discriminate Hp
                    | cbn [index index_from decide]; simpl;
                      rewrite setitem_in_range by lia; simpl;
                      first
                        [ rewrite setitem_in_range
                            by (rewrite length_insert; lia);
                          simpl; intros Hr; injection Hr as <-;
                          eexists; split; [reflexivity|];
                          cbn [boundary_data]; split;
                          [ rewrite list_lookup_insert_ne by lia;
                            apply list_lookup_insert_eq; lia
                          | apply list_lookup_insert_eq;
                            rewrite length_insert; lia ]
                        | unfold setitem; rewrite length_insert, Hb; simpl;
                          intros Hr; discriminate Hr ] ]
                 |]);
           discriminate Hp
          |]).
  destruct Hin.
Qed.

Lemma lid_header_loop_keeps_bounds lines : forall h h',
  (forall r, In r lines -> boundary_line r = false) ->
  for_each lid_header_body lines h = Returns h' ->
  boundary_data h' = boundary_data h.
Proof.
  induction lines as [|raw rest IH]; intros h h' Hnone Hrun; simpl in Hrun.
  - injection Hrun as <-. reflexivity.
  - destruct (lid_header_body raw h) as [r|e] eqn:Hbody; [|discriminate].
    pose proof (lid_header_body_keeps_bounds raw h r
                  (Hnone raw (or_introl eq_refl)) Hbody) as Hr.
    destruct r as [h1|h1]; simpl in Hrun.
    + rewrite <- Hr. apply IH; [|assumption].
      intros r Hin. apply Hnone. right. assumption.
    + injection Hrun as <-. assumption.
Qed.

Lemma lid_header_loop_app l1 : forall l2 h h',
  (forall r, In r l1 -> header_stop r = false) ->
  for_each lid_header_body (l1 ++ l2) h = Returns h' ->
  exists h1, for_each lid_header_body l1 h = Returns h1 /\
             for_each lid_header_body l2 h1 = Returns h'.
Proof.
  induction l1 as [|raw rest IH]; intros l2 h h' Hstop Hrun; simpl in Hrun.
  - exists h. split; [reflexivity | assumption].
  - simpl. destruct (lid_header_body raw h) as [r|e] eqn:Hbody;
      [|discriminate].
    destruct r as [h1|h1]; simpl in Hrun |- *.
    + apply IH; [|assumption].
      intros r Hin. apply Hstop. right. assumption.
    + apply lid_header_body_break in Hbody.
      rewrite (Hstop raw (or_introl eq_refl)) in Hbody. discriminate.
Qed.

(** X15. The last boundary line read before the scan stops fixes two
    adjacent box slots: its first token is in the slot of its third token
    and its second token in the slot that follows, also when the third token
    is an upper label. *)
Theorem header_bounds_pair_is_last
  w fname content before raw after tail p md td bd :
  files w !! fname = Some content ->
  readlines content = (before ++ raw :: after) ++ tail ->
  (forall r, In r (before ++ raw :: after) -> header_stop r = false) ->
  (tail = [] \/ exists r post, tail = r :: post /\ header_stop r = true) ->
  boundary_line raw = true ->
  (forall r, In r after -> boundary_line r = false) ->
  boundary_prop !! p = Some (tok (split raw) 2) ->
  fst (lid_header fname w) = Returns (md, td, bd) ->
  bd !! p = Some (Str (tok (split raw) 0)) /\
  bd !! S p = Some (Str (tok (split raw) 1)).
Proof.
  intros Hfile Hlines Hpre Htail Hraw Hafter Hp Hrun.
  unfold lid_header, IOMonad.bind, open_readlines, lift in Hrun.
  rewrite Hfile, Hlines in Hrun. cbn [fst] in Hrun.
  unfold lid_header_lines in Hrun.
  assert (Hloop : for_each lid_header_body
                    ((before ++ raw :: after) ++ tail) header_init
                  = for_each lid_header_body (before ++ raw :: after)
                      header_init).
  { destruct Htail as [-> | (r & post & -> & Hstop)].
    - rewrite app_nil_r. reflexivity.
    - apply for_each_break. intros h. apply lid_header_body_stop.
      assumption. }
  rewrite Hloop in Hrun.
  destruct (for_each lid_header_body (before ++ raw :: after) header_init)
    as [h|e] eqn:Hpreloop; [|discriminate].
  cbn [Py.bind] in Hrun. injection Hrun as _ _ <-.
  destruct (lid_header_loop_app before (raw :: after) header_init h)
    as (h1 & Hbefore & Hrest); [|assumption|].
  { intros r Hin. apply Hpre. apply in_or_app. left. assumption. }
  assert (Hok1 : header_ok h1).
  { apply (lid_header_loop_ok before header_init h1); [|assumption].
    repeat split. }
  simpl in Hrest.
  destruct (lid_header_body raw h1) as [r|e] eqn:Hbody; [|discriminate].
  destruct (lid_header_body_sets_bounds raw h1 r p Hok1 Hraw Hp Hbody)
    as (h2 & -> & Hlo & Hhi).
  simpl in Hrest.
  rewrite (lid_header_loop_keeps_bounds after h2 h Hafter Hrest).
  split; assumption.
Qed.

Lemma header_bounds_pair_is_last_witness :
  [Str "0.0"; Str "5.0"; Str "6.0"; Str "20.0"; Int 0; Int 0] !! 1%nat
    = Some (Str (tok (split (nl "5.0 6.0 xhi xlo")) 0)) /\
  [Str "0.0"; Str "5.0"; Str "6.0"; Str "20.0"; Int 0; Int 0] !! 2%nat
    = Some (Str (tok (split (nl "5.0 6.0 xhi xlo")) 1)).
Proof.
  apply (header_bounds_pair_is_last
           (world_of "system.data" upper_label_third) "system.data"
           upper_label_third
           [nl "0.0 10.0 xlo xhi"; nl "0.0 20.0 ylo yhi"]
           (nl "5.0 6.0 xhi xlo") [nl "2 atoms"] [nl "Atoms"] 1
           [Str "2"; Int 0; Int 0; Int 0; Int 0]
           [Int 0; Int 0; Int 0; Int 0; Int 0]
           [Str "0.0"; Str "5.0"; Str "6.0"; Str "20.0"; Int 0; Int 0]).
  - reflexivity.
  - reflexivity.
  - intros r Hin. simpl in Hin.
    repeat (destruct Hin as [<- | Hin]; [reflexivity|]). destruct Hin.
  - right. exists (nl "Atoms"), []. split; reflexivity.
  - reflexivity.
  - intros r [<- | []]. reflexivity.
  - reflexivity.
  - vm_compute. reflexivity.
Defined.
